(** * AioNextPay: the NextPay gateway client

    A shallow embedding of [src/aionextpay/nextpay.py] (class [NextPay] with
    [__init__], [purchase], [verify] and [refund]) and the properties of its
    request construction and response-code classification.

    The three coroutines are sequential: each builds a form, posts it once
    and dispatches on the decoded JSON.  They are embedded in a small monad
    that reads the remote gateway, threads the client object together with
    the log of posted requests, and carries Python exceptions. *)

From Stdlib Require Import ZArith List Lia.
From stdpp Require Import base strings gmap pretty list.

Local Open Scope string_scope.
Local Open Scope list_scope.
Local Open Scope Z_scope.

(** ** Python values *)

(** A Python float by its value: not a number, an infinity, or the dyadic
    number [m * 2 ^ e]; every finite double is such a number. *)
Inductive pyfloat : Type :=
  | FNan
  | FInf (negative : bool)
  | FDyadic (m e : Z).

(** The values that flow through the client: form-field values, keyword
    argument values and the members of the decoded JSON object.  A float
    is kept by its value and its [str()] text.  [PObj] stands for a list
    or a dict (a JSON array or object, the [custom_json_fields] dict), kept
    by its [str()] text; such a value is never [==] to an [int] or [str]
    literal. *)
Inductive pyval : Type :=
  | PNone
  | PBool (b : bool)
  | PInt (z : Z)
  | PFloat (f : pyfloat) (shown : string)
  | PStr (s : string)
  | PObj (shown : string).

(** [str(v)], which is what an f-string replacement field [{v}] renders. *)
Definition py_str (v : pyval) : string :=
  match v with
  | PNone => "None"
  | PBool true => "True"
  | PBool false => "False"
  | PInt z => pretty z
  | PFloat _ shown => shown
  | PStr s => s
  | PObj shown => shown
  end.

(** [f == k] for a float [f] and an [int] [k]: Python compares the exact
    values, so [m * 2 ^ e] equals [k] or it does not. *)
Definition float_eq_int (f : pyfloat) (k : Z) : bool :=
  match f with
  | FDyadic m e => if 0 <=? e then m * 2 ^ e =? k else m =? k * 2 ^ (- e)
  | _ => false
  end.

(** [v == k] for an [int] literal [k]; [bool] is a subclass of [int] and a
    float is compared by value. *)
Definition py_eq_int (v : pyval) (k : Z) : bool :=
  match v with
  | PInt z => Z.eqb z k
  | PBool b => Z.eqb (Z.b2z b) k
  | PFloat f _ => float_eq_int f k
  | _ => false
  end.

(** [v == s] for a [str] literal [s]. *)
Definition py_eq_str (v : pyval) (s : string) : bool :=
  match v with
  | PStr t => String.eqb t s
  | _ => false
  end.

(** [v in [k1, k2, ...]] for a list of [int] literals. *)
Definition py_in_ints (v : pyval) (ks : list Z) : bool :=
  existsb (py_eq_int v) ks.

(** [v in [s1, s2, ...]] for a list of [str] literals. *)
Definition py_in_strs (v : pyval) (ss : list string) : bool :=
  existsb (py_eq_str v) ss.

(** [key in [s1, s2, ...]] where [key] is itself a [str]. *)
Definition str_in (key : string) (ss : list string) : bool :=
  existsb (String.eqb key) ss.

(** ** Exceptions *)

(** Modelled from the spec: the [exceptions] module imported by
    [nextpay.py] is not part of the sources.  Its classes are taken, under
    the names the code uses, as the distinct failure kinds of the spec's
    error taxonomy.  [KeyError] and [TypeError] are Python's own (a
    subscript on a missing key, a subscript on a value that is not a dict)
    and [ClientError] stands for any failure of the HTTP transport or of the
    JSON decoding. *)
Inductive exception_class : Type :=
  | InvalidKey
  | InvalidCallbackUri
  | InvalidToken
  | UnknownHandled
  | PurchaseDeclined
  | PurchaseCanceled
  | InvalidPrice
  | PurchaseAlreadyMade
  | InvalidTransId
  | RefundFailed
  | NotEnoughBalance
  | KeyError
  | TypeError
  | ClientError.

Record exn : Type := Exn { exn_class : exception_class; exn_msg : string }.

(** ** Forms, requests and the gateway *)

(** [aiohttp.FormData]: the fields in the order they were added. *)
Module FormData.

Definition t : Type := list (string * pyval).

Definition new : t := [].

Definition add_field (data : t) (name : string) (value : pyval) : t :=
  data ++ [(name, value)].

End FormData.

(** One HTTP POST. *)
Record request : Type := Request {
  url : string;
  req_headers : list (string * string);
  req_data : FormData.t
}.

(** What a body decodes to: a JSON object, as a dict, or any other JSON
    value (an array, a string, a number, a boolean, null).  Subscripting
    the latter with a [str] raises [TypeError]; [complaint] is the
    interpreter's message for it. *)
Inductive decoded : Type :=
  | Object (members : gmap string pyval)
  | NonObject (v : pyval) (complaint : string).

(** What [await respond.json()] gives back: the decoded body, or a failure
    of the transport. *)
Inductive reply : Type :=
  | Json (result : decoded)
  | Fault (msg : string).

(** The remote service: its answer to a request may depend on the requests
    it has received before. *)
Definition gateway : Type := list request -> request -> reply.

(** ** The client object and the world *)

Record NextPay : Type := mkNextPay {
  token : string;
  amount : pyval;
  callback_uri : string
}.

(** The class attribute [NextPay.headers]. *)
Definition headers : list (string * string) :=
  [("User-Agent", "PostmanRuntime/7.26.8");
   ("Content-Type", "application/x-www-form-urlencoded")].

(** The mutable state a call can touch: the client object [self] and the
    requests posted so far, oldest first. *)
Record world : Type := World { self : NextPay; sent : list request }.

(** ** The monad of a call *)

Inductive outcome (A : Type) : Type :=
  | Return (a : A)
  | Raise (e : exn).
Arguments Return {A} a.
Arguments Raise {A} e.

Definition M (A : Type) : Type := gateway -> world -> outcome A * world.

#[global] Instance M_ret : MRet M := fun A a _ w => (Return a, w).

#[global] Instance M_bind : MBind M := fun A B f m gw w =>
  match m gw w with
  | (Return a, w') => f a gw w'
  | (Raise e, w') => (Raise e, w')
  end.

Definition raise {A : Type} (e : exn) : M A := fun _ w => (Raise e, w).

(** [self.attr] *)
Definition getattr {A : Type} (attr : NextPay -> A) : M A :=
  fun _ w => (Return (attr (self w)), w).

(** [self.attr = value], as a rewrite of the object. *)
Definition setattr (update : NextPay -> NextPay) : M unit :=
  fun _ w => (Return tt, {| self := update (self w); sent := sent w |}).

(** [result[key]] on the decoded body. *)
Definition getitem (result : decoded) (key : string) : M pyval :=
  match result with
  | Object members =>
      match members !! key with
      | Some v => mret v
      | None => raise (Exn KeyError ("'" +:+ key +:+ "'"))
      end
  | NonObject _ complaint => raise (Exn TypeError complaint)
  end.

(** [async with ClientSession(headers=...) as aiohttp:
       async with aiohttp.post(url=url, data=data) as respond:
         result = await respond.json()] *)
Definition post (url : string) (hdrs : list (string * string))
    (data : FormData.t) : M decoded :=
  fun gw w =>
    let req := Request url hdrs data in
    let w' := {| self := self w; sent := sent w ++ [req] |} in
    match gw (sent w) req with
    | Json result => (Return result, w')
    | Fault msg => (Raise (Exn ClientError msg), w')
    end.

(** ** The class [NextPay] *)

(** [self.token, self.amount, self.callback_uri = token, amount, callback_uri] *)
Definition __init__ (token0 : string) (amount0 : pyval) (callback_uri0 : string)
    : M unit :=
  _ ← setattr (fun o => mkNextPay token0 (amount o) (callback_uri o));
  _ ← setattr (fun o => mkNextPay (token o) amount0 (callback_uri o));
  setattr (fun o => mkNextPay (token o) (amount o) callback_uri0).

(** The keys [purchase] accepts among its keyword arguments. *)
Definition extension_keys : list string :=
  ["currency"; "phone"; "custom_json_fields"; "payer_name"; "payer_desc";
   "auto_verify"; "allowed_card"].

(** The loop [for key, value in kwargs.items()] of [purchase]; [kwargs] is
    in insertion order. *)
Fixpoint for_kwargs (kwargs : list (string * pyval)) (data : FormData.t)
    : M FormData.t :=
  match kwargs with
  | [] => mret data
  | (key, value) :: rest =>
      if str_in key extension_keys
      then for_kwargs rest (FormData.add_field data key value)
      else raise (Exn InvalidKey ("key " +:+ key +:+ " is invalid for NextPay.org"))
  end.

Definition purchase (order_id : string) (kwargs : list (string * pyval))
    : M pyval :=
  let url := "https://nextpay.org/nx/gateway/token" in
  let data := FormData.new in
  tok ← getattr token;
  let data := FormData.add_field data "api_key" (PStr tok) in
  amt ← getattr amount;
  let data := FormData.add_field data "amount" amt in
  let data := FormData.add_field data "order_id" (PStr order_id) in
  data ← for_kwargs kwargs data;
  cb ← getattr callback_uri;
  let data := FormData.add_field data "callback_uri" (PStr cb) in
  result ← post url headers data;
  code ← getitem result "code";
  if py_eq_int code (-1) then
    getitem result "trans_id"
  else
  code ← getitem result "code";
  if py_eq_int code (-32) then
    raise (Exn InvalidCallbackUri "callback_uri is invalid")
  else
  code ← getitem result "code";
  if py_eq_int code (-73) then
    raise (Exn InvalidCallbackUri
             "callback_uri has a server error or its too long")
  else
  code ← getitem result "code";
  if py_in_ints code [-33; -35; -38; -39; -40; -47] then
    tok ← getattr token;
    code ← getitem result "code";
    raise (Exn InvalidToken
             ("Token " +:+ py_str (PStr tok)
              +:+ " is invalid. error code : " +:+ py_str code))
  else
    code ← getitem result "code";
    raise (Exn UnknownHandled ("Un-handled error code : " +:+ py_str code)).

Definition verify (trans_id : string) (currency : pyval) : M bool :=
  let url := "https://nextpay.org/nx/gateway/verify" in
  let data := FormData.new in
  tok ← getattr token;
  let data := FormData.add_field data "api_key" (PStr tok) in
  amt ← getattr amount;
  let data := FormData.add_field data "amount" amt in
  let data := FormData.add_field data "trans_id" (PStr trans_id) in
  let data :=
    if py_in_strs currency ["IRT"; "IRR"]
    then FormData.add_field data "currency" currency
    else data in
  result ← post url headers data;
  code ← getitem result "code";
  if py_eq_int code 0 then
    mret true
  else
  code ← getitem result "code";
  if py_eq_int code (-2) then
    raise (Exn PurchaseDeclined "Purchase declined by user or bank")
  else
  code ← getitem result "code";
  if py_eq_int code (-4) then
    raise (Exn PurchaseCanceled "Purchase canceled")
  else
  code ← getitem result "code";
  if py_eq_int code (-24) then
    raise (Exn InvalidPrice "Entered price is invalid")
  else
  code ← getitem result "code";
  if py_eq_int code (-25) then
    raise (Exn PurchaseAlreadyMade "Purchase is already finished and paid")
  else
  code ← getitem result "code";
  if py_eq_int code (-27) then
    raise (Exn InvalidTransId "trans_id is invalid")
  else
    code ← getitem result "code";
    raise (Exn UnknownHandled ("Un-handled error code : " +:+ py_str code)).

Definition refund (trans_id : pyval) : M bool :=
  let url := "https://nextpay.org/nx/gateway/verify" in
  let data := FormData.new in
  tok ← getattr token;
  let data := FormData.add_field data "api_key" (PStr tok) in
  amt ← getattr amount;
  let data := FormData.add_field data "amount" amt in
  let data := FormData.add_field data "trans_id" trans_id in
  let data := FormData.add_field data "refund_request" (PStr "yes_money_back") in
  result ← post url headers data;
  code ← getitem result "code";
  if py_eq_int code (-90) then
    mret true
  else
  code ← getitem result "code";
  if py_in_ints code [-91; -92] then
    raise (Exn RefundFailed "Refund failed")
  else
  code ← getitem result "code";
  if py_eq_int code (-93) then
    raise (Exn NotEnoughBalance "Not enough balance to refund")
  else
  code ← getitem result "code";
  if py_eq_int code (-27) then
    raise (Exn InvalidTransId "trans_id is invalid")
  else
    code ← getitem result "code";
    raise (Exn UnknownHandled ("Un-handled error code : " +:+ py_str code)).

(** ** The two halves of a call *)

(** Each coroutine first builds and posts one request and then dispatches on
    the decoded answer.  The definitions below name the two halves so that
    they can be reasoned about apart; [purchase_run], [verify_run] and
    [refund_run] show that the coroutines above are exactly their
    composition. *)

(** The request of [purchase]: [api_key], [amount], [order_id], the
    extensions in their order, [callback_uri]. *)
Definition purchase_request (o : NextPay) (order_id : string)
    (kwargs : list (string * pyval)) : request :=
  {| url := "https://nextpay.org/nx/gateway/token";
     req_headers := headers;
     req_data :=
       [("api_key", PStr (token o)); ("amount", amount o);
        ("order_id", PStr order_id)]
       ++ kwargs ++ [("callback_uri", PStr (callback_uri o))] |}.

(** The request of [verify]: [api_key], [amount], [trans_id] and, when
    [with_currency] holds, [currency]. *)
Definition verify_request (o : NextPay) (trans_id : string)
    (with_currency : bool) (currency : pyval) : request :=
  {| url := "https://nextpay.org/nx/gateway/verify";
     req_headers := headers;
     req_data :=
       [("api_key", PStr (token o)); ("amount", amount o);
        ("trans_id", PStr trans_id)]
       ++ (if with_currency then [("currency", currency)] else []) |}.

(** The request [verify] posts for a given [currency] argument. *)
Definition verify_request_for (o : NextPay) (trans_id : string)
    (currency : pyval) : request :=
  verify_request o trans_id (py_in_strs currency ["IRT"; "IRR"]) currency.

(** The request of [refund]. *)
Definition refund_request (o : NextPay) (trans_id : pyval) : request :=
  {| url := "https://nextpay.org/nx/gateway/verify";
     req_headers := headers;
     req_data :=
       [("api_key", PStr (token o)); ("amount", amount o);
        ("trans_id", trans_id);
        ("refund_request", PStr "yes_money_back")] |}.

(** Lines 73-87 of [purchase]. *)
Definition purchase_dispatch (result : decoded) : M pyval :=
  code ← getitem result "code";
  if py_eq_int code (-1) then
    getitem result "trans_id"
  else
  code ← getitem result "code";
  if py_eq_int code (-32) then
    raise (Exn InvalidCallbackUri "callback_uri is invalid")
  else
  code ← getitem result "code";
  if py_eq_int code (-73) then
    raise (Exn InvalidCallbackUri
             "callback_uri has a server error or its too long")
  else
  code ← getitem result "code";
  if py_in_ints code [-33; -35; -38; -39; -40; -47] then
    tok ← getattr token;
    code ← getitem result "code";
    raise (Exn InvalidToken
             ("Token " +:+ py_str (PStr tok)
              +:+ " is invalid. error code : " +:+ py_str code))
  else
    code ← getitem result "code";
    raise (Exn UnknownHandled ("Un-handled error code : " +:+ py_str code)).

(** Lines 119-138 of [verify]. *)
Definition verify_dispatch (result : decoded) : M bool :=
  code ← getitem result "code";
  if py_eq_int code 0 then
    mret true
  else
  code ← getitem result "code";
  if py_eq_int code (-2) then
    raise (Exn PurchaseDeclined "Purchase declined by user or bank")
  else
  code ← getitem result "code";
  if py_eq_int code (-4) then
    raise (Exn PurchaseCanceled "Purchase canceled")
  else
  code ← getitem result "code";
  if py_eq_int code (-24) then
    raise (Exn InvalidPrice "Entered price is invalid")
  else
  code ← getitem result "code";
  if py_eq_int code (-25) then
    raise (Exn PurchaseAlreadyMade "Purchase is already finished and paid")
  else
  code ← getitem result "code";
  if py_eq_int code (-27) then
    raise (Exn InvalidTransId "trans_id is invalid")
  else
    code ← getitem result "code";
    raise (Exn UnknownHandled ("Un-handled error code : " +:+ py_str code)).

(** Lines 153-166 of [refund]. *)
Definition refund_dispatch (result : decoded) : M bool :=
  code ← getitem result "code";
  if py_eq_int code (-90) then
    mret true
  else
  code ← getitem result "code";
  if py_in_ints code [-91; -92] then
    raise (Exn RefundFailed "Refund failed")
  else
  code ← getitem result "code";
  if py_eq_int code (-93) then
    raise (Exn NotEnoughBalance "Not enough balance to refund")
  else
  code ← getitem result "code";
  if py_eq_int code (-27) then
    raise (Exn InvalidTransId "trans_id is invalid")
  else
    code ← getitem result "code";
    raise (Exn UnknownHandled ("Un-handled error code : " +:+ py_str code)).

(** Posting [req] and handing the decoded answer to [k]. *)
Definition exchange {A : Type} (req : request)
    (k : decoded -> M A) : M A :=
  result ← post (url req) (req_headers req) (req_data req); k result.

(** A computation that leaves the world as it found it. *)
Definition quiet {A : Type} (m : M A) : Prop :=
  forall (gw : gateway) (w : world), (m gw w).2 = w.

(** A computation that always ends in an exception. *)
Definition fails {A : Type} (m : M A) : Prop :=
  forall (gw : gateway) (w : world), exists e : exn, (m gw w).1 = Raise e.

(** A computation that never consults the gateway. *)
Definition offline {A : Type} (m : M A) : Prop :=
  forall (gw1 gw2 : gateway) (w : world), m gw1 w = m gw2 w.

(** The world after one more request. *)
Definition after_post (w : world) (req : request) : world :=
  {| self := self w; sent := sent w ++ [req] |}.

(** ** Vocabulary of the statements *)

(** The message [s] has [sub] as a contiguous part. *)
Definition contains (s sub : string) : Prop :=
  exists pre post : string, s = pre +:+ sub +:+ post.

(** ** Sample data *)

(** A gateway that answers every request with the JSON object [result]. *)
Definition answering (result : gmap string pyval) : gateway :=
  fun _ _ => Json (Object result).

(** A decoded answer with the given [code] and [trans_id]. *)
Definition answer (code : pyval) (trans_id : pyval) : gmap string pyval :=
  <["code" := code]> (<["trans_id" := trans_id]> ∅).

(** A client that has posted nothing yet. *)
Definition shop : world :=
  {| self := mkNextPay "tok-123" (PInt 1000) "https://shop.example/cb";
     sent := [] |}.

(** A computation whose exceptions all belong to the classes [allowed]. *)
Definition raises_only {A : Type} (allowed : list exception_class)
    (m : M A) : Prop :=
  forall (gw : gateway) (w : world) (e : exn),
    (m gw w).1 = Raise e -> exn_class e ∈ allowed.

(** The codes each operation tests for. *)
Definition purchase_codes : list Z :=
  [-1; -32; -73; -33; -35; -38; -39; -40; -47].

Definition verify_codes : list Z := [0; -2; -4; -24; -25; -27].

Definition refund_codes : list Z := [-90; -91; -92; -93; -27].

(** A code that is neither an [int], a [bool] nor a [float]. *)
Definition non_numeric (v : pyval) : bool :=
  match v with
  | PInt _ | PBool _ | PFloat _ _ => false
  | _ => true
  end.

(** * Properties *)

Lemma append_empty_r (s : string) : s +:+ "" = s.
Proof.
  induction s as [|a s IH]; [done|].
  change (String a (s +:+ "") = String a s). by rewrite IH.
Qed.

Lemma contains_suffix (pre sub : string) : contains (pre +:+ sub) sub.
Proof. exists pre, "". by rewrite append_empty_r. Qed.

Lemma append_assoc (s1 s2 s3 : string) :
  (s1 +:+ s2) +:+ s3 = s1 +:+ s2 +:+ s3.
Proof.
  induction s1 as [|a s1 IH]; [done|].
  change (String a ((s1 +:+ s2) +:+ s3) = String a (s1 +:+ s2 +:+ s3)).
  by rewrite IH.
Qed.

Lemma contains_after (pre s sub : string) :
  contains s sub -> contains (pre +:+ s) sub.
Proof.
  intros (p & q & ->). exists (pre +:+ p), q. by rewrite append_assoc.
Qed.

Lemma contains_middle (pre sub post : string) :
  contains (pre +:+ sub +:+ post) sub.
Proof. by exists pre, post. Qed.

Lemma str_in_elem_of (key : string) (ss : list string) :
  str_in key ss = true <-> key ∈ ss.
Proof.
  unfold str_in. rewrite existsb_exists. split.
  - intros (x & Hx & Heq). apply String.eqb_eq in Heq. subst.
    by apply list_elem_of_In.
  - intros Hin. exists key. split; [by apply list_elem_of_In|].
    apply String.eqb_refl.
Qed.

Lemma for_kwargs_valid (kwargs : list (string * pyval)) (data : FormData.t)
    (gw : gateway) (w : world) :
  Forall (fun kv => kv.1 ∈ extension_keys) kwargs ->
  for_kwargs kwargs data gw w = (Return (data ++ kwargs), w).
Proof.
  intros Hall. revert data.
  induction Hall as [|[key value] rest Hkey _ IH]; intros data;
    cbn [for_kwargs].
  - by rewrite app_nil_r.
  - apply str_in_elem_of in Hkey. cbn [fst] in Hkey. rewrite Hkey.
    rewrite IH. unfold FormData.add_field. by rewrite <- app_assoc.
Qed.

Lemma for_kwargs_invalid (kwargs : list (string * pyval)) :
  ~ Forall (fun kv => kv.1 ∈ extension_keys) kwargs ->
  exists key : string,
    key ∈ kwargs.*1 /\ (key ∉ extension_keys) /\
    (forall (data : FormData.t) (gw : gateway) (w : world),
      for_kwargs kwargs data gw w
      = (Raise (Exn InvalidKey ("key " +:+ key +:+ " is invalid for NextPay.org")),
         w)).
Proof.
  induction kwargs as [|[key value] rest IH]; intros Hnot.
  - destruct Hnot. constructor.
  - destruct (str_in key extension_keys) eqn:Hkey.
    + destruct IH as (bad & Hin & Hout & Hrun).
      { intros Hrest. apply Hnot. constructor; [|done].
        by apply str_in_elem_of. }
      exists bad. split; [|split]; [by right|done|].
      intros data gw w. cbn [for_kwargs]. rewrite Hkey. apply Hrun.
    + exists key. split; [|split].
      * by left.
      * intros Hin. apply str_in_elem_of in Hin. congruence.
      * intros data gw w. cbn [for_kwargs]. by rewrite Hkey.
Qed.

(** ** The monad *)

Lemma bind_run {A B : Type} (m : M A) (f : A -> M B) (gw : gateway) (w : world) :
  (m ≫= f) gw w
  = match m gw w with
    | (Return a, w') => f a gw w'
    | (Raise e, w') => (Raise e, w')
    end.
Proof. reflexivity. Qed.

Lemma exchange_run {A : Type} (req : request) (k : decoded -> M A)
    (gw : gateway) (w : world) :
  exchange req k gw w
  = match gw (sent w) req with
    | Json result => k result gw (after_post w req)
    | Fault msg => (Raise (Exn ClientError msg), after_post w req)
    end.
Proof.
  unfold exchange. rewrite bind_run. unfold post. destruct req as [u h d].
  cbn [url req_headers req_data]. by destruct (gw (sent w) _).
Qed.

Create HintDb quiet.

Lemma quiet_ret {A : Type} (a : A) : quiet (mret a).
Proof. by intros gw w. Qed.

Lemma quiet_raise {A : Type} (e : exn) : quiet (@raise A e).
Proof. by intros gw w. Qed.

Lemma quiet_getattr {A : Type} (attr : NextPay -> A) : quiet (getattr attr).
Proof. by intros gw w. Qed.

Lemma quiet_getitem (result : decoded) (key : string) :
  quiet (getitem result key).
Proof.
  destruct result as [members|v complaint]; cbn [getitem];
    [|apply quiet_raise].
  destruct (members !! key); [apply quiet_ret|apply quiet_raise].
Qed.

Lemma quiet_bind {A B : Type} (m : M A) (f : A -> M B) :
  quiet m -> (forall a, quiet (f a)) -> quiet (m ≫= f).
Proof.
  intros Hm Hf gw w. rewrite bind_run. specialize (Hm gw w).
  destruct (m gw w) as [[a|e] w']; cbn [snd] in *; subst; [apply Hf|done].
Qed.

Lemma quiet_if {A : Type} (b : bool) (m1 m2 : M A) :
  quiet m1 -> quiet m2 -> quiet (if b then m1 else m2).
Proof. by destruct b. Qed.

#[local] Hint Resolve quiet_ret quiet_raise quiet_getattr quiet_getitem
  quiet_bind quiet_if : quiet.

Lemma quiet_purchase_dispatch (result : decoded) :
  quiet (purchase_dispatch result).
Proof. unfold purchase_dispatch. auto 20 with quiet. Qed.

Lemma quiet_verify_dispatch (result : decoded) :
  quiet (verify_dispatch result).
Proof. unfold verify_dispatch. auto 30 with quiet. Qed.

Lemma quiet_refund_dispatch (result : decoded) :
  quiet (refund_dispatch result).
Proof. unfold refund_dispatch. auto 20 with quiet. Qed.

Create HintDb fails.

Lemma fails_raise {A : Type} (e : exn) : fails (@raise A e).
Proof. intros gw w. by exists e. Qed.

Lemma fails_bind {A B : Type} (m : M A) (f : A -> M B) :
  (forall a, fails (f a)) -> fails (m ≫= f).
Proof.
  intros Hf gw w. rewrite bind_run.
  destruct (m gw w) as [[a|e] w']; [apply Hf|by exists e].
Qed.

Lemma fails_if {A : Type} (b : bool) (m1 m2 : M A) :
  fails m1 -> fails m2 -> fails (if b then m1 else m2).
Proof. by destruct b. Qed.

#[local] Hint Resolve fails_raise fails_bind fails_if : fails.

Create HintDb offline.

Lemma offline_ret {A : Type} (a : A) : offline (mret a).
Proof. by intros gw1 gw2 w. Qed.

Lemma offline_raise {A : Type} (e : exn) : offline (@raise A e).
Proof. by intros gw1 gw2 w. Qed.

Lemma offline_getattr {A : Type} (attr : NextPay -> A) : offline (getattr attr).
Proof. by intros gw1 gw2 w. Qed.

Lemma offline_getitem (result : decoded) (key : string) :
  offline (getitem result key).
Proof.
  destruct result as [members|v complaint]; cbn [getitem];
    [|apply offline_raise].
  destruct (members !! key); [apply offline_ret|apply offline_raise].
Qed.

Lemma offline_bind {A B : Type} (m : M A) (f : A -> M B) :
  offline m -> (forall a, offline (f a)) -> offline (m ≫= f).
Proof.
  intros Hm Hf gw1 gw2 w. rewrite !bind_run, (Hm gw1 gw2).
  destruct (m gw2 w) as [[a|e] w']; [apply Hf|done].
Qed.

Lemma offline_if {A : Type} (b : bool) (m1 m2 : M A) :
  offline m1 -> offline m2 -> offline (if b then m1 else m2).
Proof. by destruct b. Qed.

#[local] Hint Resolve offline_ret offline_raise offline_getattr
  offline_getitem offline_bind offline_if : offline.

Lemma offline_for_kwargs (kwargs : list (string * pyval)) (data : FormData.t) :
  offline (for_kwargs kwargs data).
Proof.
  revert data. induction kwargs as [|[key value] rest IH]; intros data;
    cbn [for_kwargs]; auto with offline.
Qed.

(** A dispatch whose first test is [code == k] and whose other branch
    always raises returns only when that test holds. *)
Lemma returns_only_on {A : Type} (result : gmap string pyval) (k : Z)
    (hit miss : M A) (gw : gateway) (w : world) (v : A) :
  fails miss ->
  ((getitem (Object result) "code"
    ≫= fun code => if py_eq_int code k then hit else miss) gw w).1 = Return v ->
  exists code : pyval, result !! "code" = Some code /\ py_eq_int code k = true.
Proof.
  intros Hmiss. rewrite bind_run. cbn [getitem].
  destruct (result !! "code") as [code|]; [|discriminate].
  cbn [mret M_ret]. destruct (py_eq_int code k) eqn:Heq; [by eauto|].
  destruct (Hmiss gw w) as [e ->]. discriminate.
Qed.

(** ** The coroutines as request and dispatch *)

Lemma getattr_run {A B : Type} (attr : NextPay -> A) (k : A -> M B)
    (gw : gateway) (w : world) :
  (getattr attr ≫= k) gw w = k (attr (self w)) gw w.
Proof. reflexivity. Qed.

Lemma purchase_run (order_id : string) (kwargs : list (string * pyval))
    (gw : gateway) (w : world) :
  Forall (fun kv => kv.1 ∈ extension_keys) kwargs ->
  purchase order_id kwargs gw w
  = exchange (purchase_request (self w) order_id kwargs) purchase_dispatch gw w.
Proof.
  intros Hok. unfold purchase. rewrite !getattr_run.
  rewrite bind_run, for_kwargs_valid by done. by rewrite getattr_run.
Qed.

Lemma purchase_run_invalid (order_id : string) (kwargs : list (string * pyval)) :
  ~ Forall (fun kv => kv.1 ∈ extension_keys) kwargs ->
  exists key : string,
    key ∈ kwargs.*1 /\ (key ∉ extension_keys) /\
    (forall (gw : gateway) (w : world),
      purchase order_id kwargs gw w
      = (Raise (Exn InvalidKey ("key " +:+ key +:+ " is invalid for NextPay.org")),
         w)).
Proof.
  intros Hbad. destruct (for_kwargs_invalid kwargs Hbad) as (key & Hin & Hout & Hrun).
  exists key. split; [done|]. split; [done|].
  intros gw w. unfold purchase. rewrite !getattr_run.
  by rewrite bind_run, Hrun.
Qed.

Lemma verify_run (trans_id : string) (currency : pyval)
    (gw : gateway) (w : world) :
  verify trans_id currency gw w
  = exchange (verify_request (self w) trans_id
                (py_in_strs currency ["IRT"; "IRR"]) currency)
      verify_dispatch gw w.
Proof.
  unfold verify. rewrite !getattr_run.
  by destruct (py_in_strs currency _).
Qed.

Lemma refund_run (trans_id : pyval) (gw : gateway) (w : world) :
  refund trans_id gw w
  = exchange (refund_request (self w) trans_id) refund_dispatch gw w.
Proof. reflexivity. Qed.

(** What a call leaves in the world, whatever the gateway answers. *)
Lemma exchange_world {A : Type} (req : request) (k : decoded -> M A)
    (gw : gateway) (w : world) :
  (forall result, quiet (k result)) ->
  (exchange req k gw w).2 = after_post w req.
Proof.
  intros Hk. rewrite exchange_run.
  destruct (gw (sent w) req) as [result|msg]; [apply Hk|done].
Qed.

Lemma exchange_answer {A : Type} (req : request) (k : decoded -> M A)
    (gw : gateway) (w : world) (result : decoded) :
  gw (sent w) req = Json result ->
  exchange req k gw w = k result gw (after_post w req).
Proof. intros Hgw. by rewrite exchange_run, Hgw. Qed.

(** ** Dispatch on an integer code *)

Lemma getitem_run {A : Type} (result : gmap string pyval) (key : string)
    (v : pyval) (k : pyval -> M A) (gw : gateway) (w : world) :
  result !! key = Some v ->
  (getitem (Object result) key ≫= k) gw w = k v gw w.
Proof. intros Hkey. cbn [getitem]. by rewrite Hkey. Qed.

Lemma getitem_found (result : gmap string pyval) (key : string) (v : pyval)
    (gw : gateway) (w : world) :
  result !! key = Some v -> getitem (Object result) key gw w = (Return v, w).
Proof. intros Hkey. cbn [getitem]. by rewrite Hkey. Qed.

Lemma getitem_missing {A : Type} (result : gmap string pyval) (key : string)
    (k : pyval -> M A) (gw : gateway) (w : world) :
  result !! key = None ->
  (getitem (Object result) key ≫= k) gw w
  = (Raise (Exn KeyError ("'" +:+ key +:+ "'")), w).
Proof. intros Hkey. cbn [getitem]. by rewrite bind_run, Hkey. Qed.

Lemma purchase_dispatch_int (result : gmap string pyval) (c : Z)
    (gw : gateway) (w : world) :
  result !! "code" = Some (PInt c) ->
  purchase_dispatch (Object result) gw w
  = if c =? -1 then getitem (Object result) "trans_id" gw w
    else if c =? -32 then
      (Raise (Exn InvalidCallbackUri "callback_uri is invalid"), w)
    else if c =? -73 then
      (Raise (Exn InvalidCallbackUri
                "callback_uri has a server error or its too long"), w)
    else if existsb (Z.eqb c) [-33; -35; -38; -39; -40; -47] then
      (Raise (Exn InvalidToken
                ("Token " +:+ token (self w)
                 +:+ " is invalid. error code : " +:+ pretty c)), w)
    else
      (Raise (Exn UnknownHandled ("Un-handled error code : " +:+ pretty c)), w).
Proof.
  intros Hcode. unfold purchase_dispatch.
  rewrite (getitem_run _ _ _ _ _ _ Hcode). cbn [py_eq_int].
  destruct (c =? -1); [done|].
  rewrite (getitem_run _ _ _ _ _ _ Hcode). cbn [py_eq_int].
  destruct (c =? -32); [done|].
  rewrite (getitem_run _ _ _ _ _ _ Hcode). cbn [py_eq_int].
  destruct (c =? -73); [done|].
  rewrite (getitem_run _ _ _ _ _ _ Hcode). unfold py_in_ints.
  change (existsb (py_eq_int (PInt c))) with (existsb (Z.eqb c)).
  destruct (existsb _ _).
  - rewrite getattr_run. by rewrite (getitem_run _ _ _ _ _ _ Hcode).
  - by rewrite (getitem_run _ _ _ _ _ _ Hcode).
Qed.

Lemma verify_dispatch_int (result : gmap string pyval) (c : Z)
    (gw : gateway) (w : world) :
  result !! "code" = Some (PInt c) ->
  verify_dispatch (Object result) gw w
  = if c =? 0 then (Return true, w)
    else if c =? -2 then
      (Raise (Exn PurchaseDeclined "Purchase declined by user or bank"), w)
    else if c =? -4 then
      (Raise (Exn PurchaseCanceled "Purchase canceled"), w)
    else if c =? -24 then
      (Raise (Exn InvalidPrice "Entered price is invalid"), w)
    else if c =? -25 then
      (Raise (Exn PurchaseAlreadyMade
                "Purchase is already finished and paid"), w)
    else if c =? -27 then
      (Raise (Exn InvalidTransId "trans_id is invalid"), w)
    else
      (Raise (Exn UnknownHandled ("Un-handled error code : " +:+ pretty c)), w).
Proof.
  intros Hcode. unfold verify_dispatch.
  do 6 (rewrite (getitem_run _ _ _ _ _ _ Hcode); cbn [py_eq_int];
        destruct (c =? _); [done|]).
  by rewrite (getitem_run _ _ _ _ _ _ Hcode).
Qed.

Lemma refund_dispatch_int (result : gmap string pyval) (c : Z)
    (gw : gateway) (w : world) :
  result !! "code" = Some (PInt c) ->
  refund_dispatch (Object result) gw w
  = if c =? -90 then (Return true, w)
    else if existsb (Z.eqb c) [-91; -92] then
      (Raise (Exn RefundFailed "Refund failed"), w)
    else if c =? -93 then
      (Raise (Exn NotEnoughBalance "Not enough balance to refund"), w)
    else if c =? -27 then
      (Raise (Exn InvalidTransId "trans_id is invalid"), w)
    else
      (Raise (Exn UnknownHandled ("Un-handled error code : " +:+ pretty c)), w).
Proof.
  intros Hcode. unfold refund_dispatch.
  rewrite (getitem_run _ _ _ _ _ _ Hcode). cbn [py_eq_int].
  destruct (c =? -90); [done|].
  rewrite (getitem_run _ _ _ _ _ _ Hcode). unfold py_in_ints.
  change (existsb (py_eq_int (PInt c))) with (existsb (Z.eqb c)).
  destruct (existsb _ _); [done|].
  do 2 (rewrite (getitem_run _ _ _ _ _ _ Hcode); cbn [py_eq_int];
        destruct (c =? _); [done|]).
  by rewrite (getitem_run _ _ _ _ _ _ Hcode).
Qed.

(** Settling the tests of a table once the code is known. *)
Ltac settle_code :=
  cbn [existsb orb];
  repeat match goal with
         | |- context [Z.eqb ?a ?b] =>
             destruct (Z.eqb_spec a b); [try lia|]; cbn [orb]
         end.

(** ** Classification of the gateway's answer *)

(** C1: [purchase]: when every extension key is accepted and the gateway
    answers the request of the call with a JSON object whose [code] is an
    integer, then code -1 returns the answer's [trans_id]; -32 and -73
    raise [InvalidCallbackUri]; -33, -35, -38, -39, -40 and -47 raise
    [InvalidToken] with a message that contains the client's token and the
    code; every other code raises [UnknownHandled] with a message that
    contains the code. *)
Theorem purchase_code_table (order_id : string)
    (kwargs : list (string * pyval)) (gw : gateway) (w : world)
    (result : gmap string pyval) (c : Z) :
  Forall (fun kv => kv.1 ∈ extension_keys) kwargs ->
  gw (sent w) (purchase_request (self w) order_id kwargs)
  = Json (Object result) ->
  result !! "code" = Some (PInt c) ->
  let out := (purchase order_id kwargs gw w).1 in
  (c = -1 -> forall t : pyval, result !! "trans_id" = Some t -> out = Return t)
  /\ (c = -32 \/ c = -73 ->
      exists msg : string, out = Raise (Exn InvalidCallbackUri msg))
  /\ (c ∈ [-33; -35; -38; -39; -40; -47] ->
      exists msg : string,
        out = Raise (Exn InvalidToken msg)
        /\ contains msg (token (self w)) /\ contains msg (pretty c))
  /\ (c ∉ [-1; -32; -73; -33; -35; -38; -39; -40; -47] ->
      exists msg : string,
        out = Raise (Exn UnknownHandled msg) /\ contains msg (pretty c)).
Proof.
  intros Hok Hgw Hcode out. subst out.
  rewrite purchase_run, (exchange_answer _ _ _ _ _ Hgw) by done.
  rewrite (purchase_dispatch_int _ _ _ _ Hcode).
  split; [|split; [|split]].
  - intros -> t Ht. cbn [Z.eqb Pos.eqb]. by rewrite (getitem_found _ _ _ _ _ Ht).
  - intros [-> | ->]; cbn; eauto.
  - intros Hin. rewrite !elem_of_cons, elem_of_nil in Hin.
    exists ("Token " +:+ token (self w)
            +:+ " is invalid. error code : " +:+ pretty c).
    split; [|split].
    + destruct Hin as [->|[->|[->|[->|[->|[->|[]]]]]]]; reflexivity.
    + apply contains_middle.
    + do 2 apply contains_after. apply contains_suffix.
  - intros Hout. rewrite !not_elem_of_cons in Hout.
    exists ("Un-handled error code : " +:+ pretty c).
    split; [|apply contains_suffix].
    settle_code. reflexivity.
Qed.

Lemma purchase_code_table_witness :
  Forall (fun kv : string * pyval => kv.1 ∈ extension_keys) []
  /\ answering (answer (PInt (-1)) (PStr "abc123")) (sent shop)
       (purchase_request (self shop) "order-1" [])
     = Json (Object (answer (PInt (-1)) (PStr "abc123")))
  /\ answer (PInt (-1)) (PStr "abc123") !! "code" = Some (PInt (-1))
  /\ (purchase "order-1" [] (answering (answer (PInt (-1)) (PStr "abc123")))
        shop).1
     = Return (PStr "abc123").
Proof.
  assert (Hcode : answer (PInt (-1)) (PStr "abc123") !! "code" = Some (PInt (-1)))
    by (vm_compute; reflexivity).
  split; [constructor|]. split; [reflexivity|]. split; [exact Hcode|].
  refine (proj1 (purchase_code_table "order-1" []
                   (answering (answer (PInt (-1)) (PStr "abc123"))) shop
                   (answer (PInt (-1)) (PStr "abc123")) (-1)
                   (Forall_nil_2 _) eq_refl Hcode) eq_refl (PStr "abc123") _).
  vm_compute; reflexivity.
Defined.

(** C3: [verify]: when the gateway answers the request of the call with a
    JSON object whose [code] is an integer, then code 0 returns [True]; -2
    raises [PurchaseDeclined], -4 [PurchaseCanceled], -24 [InvalidPrice],
    -25 [PurchaseAlreadyMade], -27 [InvalidTransId]; every other code
    raises [UnknownHandled]. *)
Theorem verify_code_table (trans_id : string) (currency : pyval)
    (gw : gateway) (w : world) (result : gmap string pyval) (c : Z) :
  gw (sent w) (verify_request_for (self w) trans_id currency)
  = Json (Object result) ->
  result !! "code" = Some (PInt c) ->
  let out := (verify trans_id currency gw w).1 in
  (c = 0 -> out = Return true)
  /\ (c = -2 -> exists msg : string, out = Raise (Exn PurchaseDeclined msg))
  /\ (c = -4 -> exists msg : string, out = Raise (Exn PurchaseCanceled msg))
  /\ (c = -24 -> exists msg : string, out = Raise (Exn InvalidPrice msg))
  /\ (c = -25 ->
      exists msg : string, out = Raise (Exn PurchaseAlreadyMade msg))
  /\ (c = -27 -> exists msg : string, out = Raise (Exn InvalidTransId msg))
  /\ (c ∉ [0; -2; -4; -24; -25; -27] ->
      exists msg : string, out = Raise (Exn UnknownHandled msg)).
Proof.
  intros Hgw Hcode out. subst out.
  rewrite verify_run. fold (verify_request_for (self w) trans_id currency).
  rewrite (exchange_answer _ _ _ _ _ Hgw).
  rewrite (verify_dispatch_int _ _ _ _ Hcode).
  repeat split; try (intros ->; cbn; eauto).
  intros Hout. rewrite !not_elem_of_cons in Hout.
  settle_code. cbn. eauto.
Qed.

Lemma verify_code_table_witness :
  answering (answer (PInt (-25)) PNone) (sent shop)
    (verify_request_for (self shop) "abc123" PNone)
  = Json (Object (answer (PInt (-25)) PNone))
  /\ answer (PInt (-25)) PNone !! "code" = Some (PInt (-25))
  /\ exists msg : string,
       (verify "abc123" PNone (answering (answer (PInt (-25)) PNone)) shop).1
       = Raise (Exn PurchaseAlreadyMade msg).
Proof.
  assert (Hcode : answer (PInt (-25)) PNone !! "code" = Some (PInt (-25)))
    by (vm_compute; reflexivity).
  split; [reflexivity|]. split; [exact Hcode|].
  exact (proj1 (proj2 (proj2 (proj2 (proj2
           (verify_code_table "abc123" PNone
              (answering (answer (PInt (-25)) PNone)) shop
              (answer (PInt (-25)) PNone) (-25)
              eq_refl Hcode))))) eq_refl).
Defined.

(** C4: [refund]: when the gateway answers the request of the call with a
    JSON object whose [code] is an integer, then code -90 returns [True];
    -91 and -92 raise [RefundFailed], -93 [NotEnoughBalance], -27
    [InvalidTransId]; every other code raises [UnknownHandled]. *)
Theorem refund_code_table (trans_id : pyval) (gw : gateway) (w : world)
    (result : gmap string pyval) (c : Z) :
  gw (sent w) (refund_request (self w) trans_id) = Json (Object result) ->
  result !! "code" = Some (PInt c) ->
  let out := (refund trans_id gw w).1 in
  (c = -90 -> out = Return true)
  /\ (c = -91 \/ c = -92 ->
      exists msg : string, out = Raise (Exn RefundFailed msg))
  /\ (c = -93 -> exists msg : string, out = Raise (Exn NotEnoughBalance msg))
  /\ (c = -27 -> exists msg : string, out = Raise (Exn InvalidTransId msg))
  /\ (c ∉ [-90; -91; -92; -93; -27] ->
      exists msg : string, out = Raise (Exn UnknownHandled msg)).
Proof.
  intros Hgw Hcode out. subst out.
  rewrite refund_run, (exchange_answer _ _ _ _ _ Hgw).
  rewrite (refund_dispatch_int _ _ _ _ Hcode).
  repeat split; try (intros ->; cbn; eauto).
  - intros [-> | ->]; cbn; eauto.
  - intros Hout. rewrite !not_elem_of_cons in Hout.
    settle_code. cbn. eauto.
Qed.

Lemma refund_code_table_witness :
  answering (answer (PInt (-93)) PNone) (sent shop)
    (refund_request (self shop) (PStr "abc123"))
  = Json (Object (answer (PInt (-93)) PNone))
  /\ answer (PInt (-93)) PNone !! "code" = Some (PInt (-93))
  /\ exists msg : string,
       (refund (PStr "abc123") (answering (answer (PInt (-93)) PNone)) shop).1
       = Raise (Exn NotEnoughBalance msg).
Proof.
  assert (Hcode : answer (PInt (-93)) PNone !! "code" = Some (PInt (-93)))
    by (vm_compute; reflexivity).
  split; [reflexivity|]. split; [exact Hcode|].
  exact (proj1 (proj2 (proj2
           (refund_code_table (PStr "abc123")
              (answering (answer (PInt (-93)) PNone)) shop
              (answer (PInt (-93)) PNone) (-93)
              eq_refl Hcode))) eq_refl).
Defined.

(** ** Local validation of the extensions *)

(** C2: [purchase]: when some keyword argument has a key outside
    currency, phone, custom_json_fields, payer_name, payer_desc,
    auto_verify, allowed_card, the call raises [InvalidKey] naming such a
    key, whatever the gateway, and leaves the world as it was: no request
    has been posted. *)
Theorem purchase_rejects_unknown_key (order_id : string)
    (kwargs : list (string * pyval)) :
  (exists key : string, key ∈ kwargs.*1 /\ (key ∉ extension_keys)) ->
  exists key : string,
    key ∈ kwargs.*1 /\ (key ∉ extension_keys) /\
    (forall (gw : gateway) (w : world),
       purchase order_id kwargs gw w
       = (Raise (Exn InvalidKey
                   ("key " +:+ key +:+ " is invalid for NextPay.org")), w)
       /\ sent (purchase order_id kwargs gw w).2 = sent w).
Proof.
  intros (bad & Hin & Hout).
  destruct (purchase_run_invalid order_id kwargs) as (key & Hkey & Hno & Hrun).
  - intros Hall. apply Hout. apply list_elem_of_fmap in Hin as (kv & -> & Hkv).
    by apply (proj1 (Forall_forall _ _) Hall kv).
  - exists key. split; [done|]. split; [done|].
    intros gw w. by rewrite Hrun.
Qed.

Lemma purchase_rejects_unknown_key_witness :
  (exists key : string,
     key ∈ [("phone", PStr "0912"); ("colour", PStr "red")].*1
     /\ (key ∉ extension_keys))
  /\ purchase "order-1" [("phone", PStr "0912"); ("colour", PStr "red")]
       (answering (answer (PInt (-1)) (PStr "abc123"))) shop
     = (Raise (Exn InvalidKey "key colour is invalid for NextPay.org"), shop).
Proof.
  assert (Hbad : exists key : string,
     key ∈ [("phone", PStr "0912"); ("colour", PStr "red")].*1
     /\ (key ∉ extension_keys)).
  { exists "colour". split; [by right; left|].
    intros Hin. apply str_in_elem_of in Hin. vm_compute in Hin. discriminate. }
  split; [exact Hbad|].
  destruct (purchase_rejects_unknown_key "order-1"
              [("phone", PStr "0912"); ("colour", PStr "red")] Hbad)
    as (key & Hin & Hno & Hrun).
  assert (Hkey : key = "colour").
  { cbn [fmap list_fmap fst] in Hin.
    rewrite !elem_of_cons, elem_of_nil in Hin.
    destruct Hin as [->|[->|[]]]; [|done].
    destruct Hno. apply str_in_elem_of. vm_compute. reflexivity. }
  subst key. exact (proj1 (Hrun _ _)).
Defined.

(** ** Codes outside the tables *)

(** C5: For each of [purchase], [verify] and [refund], when the gateway
    answers the request of the call with a JSON object: an integer code
    outside the operation's table raises [UnknownHandled] with a message
    that contains the code (so neither a success nor any other exception),
    and the call returns a value only when the code equals -1 for
    [purchase], 0 for [verify] and -90 for [refund], in Python's [==]. *)
Theorem unlisted_code_is_unhandled (gw : gateway) (w : world)
    (result : gmap string pyval) :
  (forall (order_id : string) (kwargs : list (string * pyval)),
     Forall (fun kv => kv.1 ∈ extension_keys) kwargs ->
     gw (sent w) (purchase_request (self w) order_id kwargs)
     = Json (Object result) ->
     let out := (purchase order_id kwargs gw w).1 in
     (forall c : Z,
        result !! "code" = Some (PInt c) ->
        c ∉ [-1; -32; -73; -33; -35; -38; -39; -40; -47] ->
        exists msg : string,
          out = Raise (Exn UnknownHandled msg) /\ contains msg (pretty c))
     /\ (forall v : pyval,
           out = Return v ->
           exists code : pyval,
             result !! "code" = Some code /\ py_eq_int code (-1) = true))
  /\ (forall (trans_id : string) (currency : pyval),
        gw (sent w) (verify_request_for (self w) trans_id currency)
        = Json (Object result) ->
        let out := (verify trans_id currency gw w).1 in
        (forall c : Z,
           result !! "code" = Some (PInt c) ->
           c ∉ [0; -2; -4; -24; -25; -27] ->
           exists msg : string,
             out = Raise (Exn UnknownHandled msg) /\ contains msg (pretty c))
        /\ (forall v : bool,
              out = Return v ->
              exists code : pyval,
                result !! "code" = Some code /\ py_eq_int code 0 = true))
  /\ (forall trans_id : pyval,
        gw (sent w) (refund_request (self w) trans_id)
        = Json (Object result) ->
        let out := (refund trans_id gw w).1 in
        (forall c : Z,
           result !! "code" = Some (PInt c) ->
           c ∉ [-90; -91; -92; -93; -27] ->
           exists msg : string,
             out = Raise (Exn UnknownHandled msg) /\ contains msg (pretty c))
        /\ (forall v : bool,
              out = Return v ->
              exists code : pyval,
                result !! "code" = Some code /\ py_eq_int code (-90) = true)).
Proof.
  split; [|split].
  - intros order_id kwargs Hok Hgw out. subst out.
    rewrite purchase_run, (exchange_answer _ _ _ _ _ Hgw) by done.
    split.
    + intros c Hcode Hout. rewrite (purchase_dispatch_int _ _ _ _ Hcode).
      rewrite !not_elem_of_cons in Hout.
      exists ("Un-handled error code : " +:+ pretty c).
      split; [|apply contains_suffix]. settle_code. reflexivity.
    + intros v. apply returns_only_on. auto 20 with fails.
  - intros trans_id currency Hgw out. subst out.
    rewrite verify_run. fold (verify_request_for (self w) trans_id currency).
    rewrite (exchange_answer _ _ _ _ _ Hgw).
    split.
    + intros c Hcode Hout. rewrite (verify_dispatch_int _ _ _ _ Hcode).
      rewrite !not_elem_of_cons in Hout.
      exists ("Un-handled error code : " +:+ pretty c).
      split; [|apply contains_suffix]. settle_code. reflexivity.
    + intros v. apply returns_only_on. auto 30 with fails.
  - intros trans_id Hgw out. subst out.
    rewrite refund_run, (exchange_answer _ _ _ _ _ Hgw).
    split.
    + intros c Hcode Hout. rewrite (refund_dispatch_int _ _ _ _ Hcode).
      rewrite !not_elem_of_cons in Hout.
      exists ("Un-handled error code : " +:+ pretty c).
      split; [|apply contains_suffix]. settle_code. reflexivity.
    + intros v. apply returns_only_on. auto 20 with fails.
Qed.

Lemma unlisted_code_is_unhandled_witness :
  answering (answer (PInt 7) PNone) (sent shop)
    (verify_request_for (self shop) "abc123" PNone)
  = Json (Object (answer (PInt 7) PNone))
  /\ answer (PInt 7) PNone !! "code" = Some (PInt 7)
  /\ (7 ∉ [0; -2; -4; -24; -25; -27])
  /\ exists msg : string,
       (verify "abc123" PNone (answering (answer (PInt 7) PNone)) shop).1
       = Raise (Exn UnknownHandled msg)
       /\ contains msg (pretty 7).
Proof.
  assert (Hcode : answer (PInt 7) PNone !! "code" = Some (PInt 7))
    by (vm_compute; reflexivity).
  assert (Hout : 7 ∉ [0; -2; -4; -24; -25; -27]).
  { rewrite !not_elem_of_cons. repeat split; try lia. apply not_elem_of_nil. }
  split; [reflexivity|]. split; [exact Hcode|]. split; [exact Hout|].
  exact (proj1 (proj1 (proj2 (unlisted_code_is_unhandled
                                (answering (answer (PInt 7) PNone)) shop
                                (answer (PInt 7) PNone)))
                  "abc123" PNone eq_refl) 7 Hcode Hout).
Defined.

(** ** The requests *)

(** C6: [verify]: the call always posts its request; the form carries a
    [currency] field, after [api_key], [amount] and [trans_id], exactly when
    the argument is the string IRT or IRR, and no such field for any other
    value, [None] included. *)
Theorem verify_currency_filter (trans_id : string) (currency : pyval)
    (gw : gateway) (w : world) :
  exists req : request,
    sent (verify trans_id currency gw w).2 = sent w ++ [req]
    /\ (currency = PStr "IRT" \/ currency = PStr "IRR" ->
        req_data req
        = [("api_key", PStr (token (self w))); ("amount", amount (self w));
           ("trans_id", PStr trans_id); ("currency", currency)])
    /\ (currency <> PStr "IRT" -> currency <> PStr "IRR" ->
        req_data req
        = [("api_key", PStr (token (self w))); ("amount", amount (self w));
           ("trans_id", PStr trans_id)]
        /\ forall v : pyval, ("currency", v) ∉ req_data req).
Proof.
  exists (verify_request (self w) trans_id
            (py_in_strs currency ["IRT"; "IRR"]) currency).
  split; [|split].
  - rewrite verify_run.
    by rewrite exchange_world by apply quiet_verify_dispatch.
  - intros [-> | ->]; reflexivity.
  - intros Hirt Hirr.
    assert (Hno : py_in_strs currency ["IRT"; "IRR"] = false).
    { destruct currency as [| | | |s|]; try reflexivity.
      cbn [py_in_strs existsb py_eq_str].
      destruct (String.eqb_spec s "IRT") as [->|_]; [done|].
      destruct (String.eqb_spec s "IRR") as [->|_]; [done|].
      reflexivity. }
    rewrite Hno. split; [reflexivity|].
    intros v Hin. cbn in Hin.
    rewrite !elem_of_cons, elem_of_nil in Hin.
    destruct Hin as [?|[?|[?|[]]]]; discriminate.
Qed.

Lemma verify_currency_filter_witness :
  PStr "USD" <> PStr "IRT" /\ PStr "USD" <> PStr "IRR"
  /\ sent (verify "abc123" (PStr "USD")
             (answering (answer (PInt 0) PNone)) shop).2
     = [Request "https://nextpay.org/nx/gateway/verify" headers
          [("api_key", PStr "tok-123"); ("amount", PInt 1000);
           ("trans_id", PStr "abc123")]].
Proof.
  split; [discriminate|]. split; [discriminate|].
  destruct (verify_currency_filter "abc123" (PStr "USD")
              (answering (answer (PInt 0) PNone)) shop)
    as (req & Hsent & _ & Hother).
  destruct Hother as [Hdata _]; [discriminate|discriminate|].
  rewrite Hsent. destruct req as [u h d]. cbn [req_data] in Hdata. subst d.
  vm_compute in Hsent. injection Hsent as <- <-. reflexivity.
Defined.

(** C7: [refund] and [verify] without currency post to the same URL, with
    the same headers, and the form of [refund] is the form of [verify]
    followed by the one field [refund_request=yes_money_back]. *)
Theorem refund_is_verify_plus_flag (trans_id : string)
    (gw_v gw_r : gateway) (w : world) :
  exists req_v req_r : request,
    sent (verify trans_id PNone gw_v w).2 = sent w ++ [req_v]
    /\ sent (refund (PStr trans_id) gw_r w).2 = sent w ++ [req_r]
    /\ url req_v = "https://nextpay.org/nx/gateway/verify"
    /\ url req_r = url req_v
    /\ req_headers req_r = req_headers req_v
    /\ req_data req_r
       = FormData.add_field (req_data req_v)
           "refund_request" (PStr "yes_money_back").
Proof.
  exists (verify_request (self w) trans_id false PNone),
         (refund_request (self w) (PStr trans_id)).
  split; [|split]; [| |by repeat split].
  - rewrite verify_run.
    by rewrite exchange_world by apply quiet_verify_dispatch.
  - rewrite refund_run.
    by rewrite exchange_world by apply quiet_refund_dispatch.
Qed.

(** C9: No operation checks its string argument for emptiness: for every
    string, the empty one included, [purchase] (with accepted extension
    keys), [verify] and [refund] post a request whose form carries that
    string unchanged as [order_id], respectively [trans_id]. *)
Theorem string_argument_is_not_validated (s : string)
    (kwargs : list (string * pyval)) (currency : pyval)
    (gw : gateway) (w : world) :
  Forall (fun kv => kv.1 ∈ extension_keys) kwargs ->
  (exists req : request,
     sent (purchase s kwargs gw w).2 = sent w ++ [req]
     /\ req_data req
        = [("api_key", PStr (token (self w))); ("amount", amount (self w));
           ("order_id", PStr s)]
          ++ kwargs ++ [("callback_uri", PStr (callback_uri (self w)))])
  /\ (exists req : request,
        sent (verify s currency gw w).2 = sent w ++ [req]
        /\ ("trans_id", PStr s) ∈ req_data req)
  /\ (exists req : request,
        sent (refund (PStr s) gw w).2 = sent w ++ [req]
        /\ req_data req
           = [("api_key", PStr (token (self w))); ("amount", amount (self w));
              ("trans_id", PStr s);
              ("refund_request", PStr "yes_money_back")]).
Proof.
  intros Hok. split; [|split].
  - exists (purchase_request (self w) s kwargs). split; [|reflexivity].
    rewrite purchase_run by done.
    by rewrite exchange_world by apply quiet_purchase_dispatch.
  - exists (verify_request (self w) s
              (py_in_strs currency ["IRT"; "IRR"]) currency).
    split.
    + rewrite verify_run.
      by rewrite exchange_world by apply quiet_verify_dispatch.
    + cbn. do 2 right. by left.
  - exists (refund_request (self w) (PStr s)). split; [|reflexivity].
    rewrite refund_run.
    by rewrite exchange_world by apply quiet_refund_dispatch.
Qed.

Lemma string_argument_is_not_validated_witness :
  Forall (fun kv : string * pyval => kv.1 ∈ extension_keys) []
  /\ exists req : request,
       sent (purchase "" [] (answering (answer (PInt (-1)) (PStr "abc123")))
               shop).2
       = sent shop ++ [req]
       /\ req_data req
          = [("api_key", PStr "tok-123"); ("amount", PInt 1000);
             ("order_id", PStr "");
             ("callback_uri", PStr "https://shop.example/cb")].
Proof.
  split; [constructor|].
  exact (proj1 (string_argument_is_not_validated "" [] PNone
                  (answering (answer (PInt (-1)) (PStr "abc123"))) shop
                  (Forall_nil_2 _))).
Defined.

(** ** The client object *)

(** C8: [__init__] assigns the three attributes, always returns, and
    posts nothing; [purchase], [verify] and [refund] leave the client
    object as it was, whether they return or raise. *)
Theorem client_state_is_preserved (gw : gateway) (w : world) :
  (forall (token0 : string) (amount0 : pyval) (callback_uri0 : string),
     __init__ token0 amount0 callback_uri0 gw w
     = (Return tt,
        {| self := mkNextPay token0 amount0 callback_uri0; sent := sent w |}))
  /\ (forall (order_id : string) (kwargs : list (string * pyval)),
        self (purchase order_id kwargs gw w).2 = self w)
  /\ (forall (trans_id : string) (currency : pyval),
        self (verify trans_id currency gw w).2 = self w)
  /\ (forall trans_id : pyval, self (refund trans_id gw w).2 = self w).
Proof.
  split; [|split; [|split]].
  - reflexivity.
  - intros order_id kwargs.
    destruct (decide (Forall (fun kv => kv.1 ∈ extension_keys) kwargs))
      as [Hok|Hbad].
    + rewrite purchase_run by done.
      by rewrite exchange_world by apply quiet_purchase_dispatch.
    + destruct (purchase_run_invalid order_id kwargs Hbad)
        as (key & _ & _ & Hrun).
      by rewrite Hrun.
  - intros trans_id currency. rewrite verify_run.
    by rewrite exchange_world by apply quiet_verify_dispatch.
  - intros trans_id. rewrite refund_run.
    by rewrite exchange_world by apply quiet_refund_dispatch.
Qed.

(** ** What the outcome depends on *)

Lemma purchase_dispatch_code (r1 r2 : gmap string pyval)
    (gw : gateway) (w : world) :
  r1 !! "code" = r2 !! "code" ->
  (forall code : pyval,
     r1 !! "code" = Some code -> py_eq_int code (-1) = true ->
     r1 !! "trans_id" = r2 !! "trans_id") ->
  purchase_dispatch (Object r1) gw w = purchase_dispatch (Object r2) gw w.
Proof.
  intros Hcode Htrans. unfold purchase_dispatch. cbn [getitem].
  rewrite <- Hcode. destruct (r1 !! "code") as [code|] eqn:Hr1; [|done].
  rewrite !bind_run. cbn [mret M_ret].
  destruct (py_eq_int code (-1)) eqn:Heq; [|done].
  by rewrite (Htrans code eq_refl Heq).
Qed.

Lemma verify_dispatch_code (r1 r2 : gmap string pyval)
    (gw : gateway) (w : world) :
  r1 !! "code" = r2 !! "code" ->
  verify_dispatch (Object r1) gw w = verify_dispatch (Object r2) gw w.
Proof. intros Hcode. unfold verify_dispatch. cbn [getitem]. by rewrite Hcode. Qed.

Lemma refund_dispatch_code (r1 r2 : gmap string pyval)
    (gw : gateway) (w : world) :
  r1 !! "code" = r2 !! "code" ->
  refund_dispatch (Object r1) gw w = refund_dispatch (Object r2) gw w.
Proof. intros Hcode. unfold refund_dispatch. cbn [getitem]. by rewrite Hcode. Qed.

Lemma offline_purchase_dispatch (result : decoded) :
  offline (purchase_dispatch result).
Proof. unfold purchase_dispatch. auto 20 with offline. Qed.

Lemma offline_verify_dispatch (result : decoded) :
  offline (verify_dispatch result).
Proof. unfold verify_dispatch. auto 30 with offline. Qed.

Lemma offline_refund_dispatch (result : decoded) :
  offline (refund_dispatch result).
Proof. unfold refund_dispatch. auto 20 with offline. Qed.

(** C10: Two JSON objects, given in answer to the request of the call, that
    agree on [code] (and on [trans_id] when the code of a [purchase] equals
    -1 in Python's [==]) give the same outcome and the same world, whatever
    else the answers hold. *)
Theorem outcome_depends_on_code_only (gw1 gw2 : gateway) (w : world)
    (r1 r2 : gmap string pyval) :
  r1 !! "code" = r2 !! "code" ->
  (forall (order_id : string) (kwargs : list (string * pyval)),
     gw1 (sent w) (purchase_request (self w) order_id kwargs)
     = Json (Object r1) ->
     gw2 (sent w) (purchase_request (self w) order_id kwargs)
     = Json (Object r2) ->
     (forall code : pyval,
        r1 !! "code" = Some code -> py_eq_int code (-1) = true ->
        r1 !! "trans_id" = r2 !! "trans_id") ->
     purchase order_id kwargs gw1 w = purchase order_id kwargs gw2 w)
  /\ (forall (trans_id : string) (currency : pyval),
        gw1 (sent w) (verify_request_for (self w) trans_id currency)
        = Json (Object r1) ->
        gw2 (sent w) (verify_request_for (self w) trans_id currency)
        = Json (Object r2) ->
        verify trans_id currency gw1 w = verify trans_id currency gw2 w)
  /\ (forall trans_id : pyval,
        gw1 (sent w) (refund_request (self w) trans_id) = Json (Object r1) ->
        gw2 (sent w) (refund_request (self w) trans_id) = Json (Object r2) ->
        refund trans_id gw1 w = refund trans_id gw2 w).
Proof.
  intros Hcode. split; [|split].
  - intros order_id kwargs Hgw1 Hgw2 Htrans.
    destruct (decide (Forall (fun kv => kv.1 ∈ extension_keys) kwargs))
      as [Hok|Hbad].
    + rewrite !purchase_run by done.
      rewrite (exchange_answer _ _ _ _ _ Hgw1),
        (exchange_answer _ _ _ _ _ Hgw2).
      rewrite (offline_purchase_dispatch (Object r1) gw1 gw2).
      by apply purchase_dispatch_code.
    + destruct (purchase_run_invalid order_id kwargs Hbad)
        as (key & _ & _ & Hrun).
      by rewrite !Hrun.
  - intros trans_id currency Hgw1 Hgw2.
    rewrite !verify_run.
    fold (verify_request_for (self w) trans_id currency).
    rewrite (exchange_answer _ _ _ _ _ Hgw1), (exchange_answer _ _ _ _ _ Hgw2).
    rewrite (offline_verify_dispatch (Object r1) gw1 gw2).
    by apply verify_dispatch_code.
  - intros trans_id Hgw1 Hgw2.
    rewrite !refund_run.
    rewrite (exchange_answer _ _ _ _ _ Hgw1), (exchange_answer _ _ _ _ _ Hgw2).
    rewrite (offline_refund_dispatch (Object r1) gw1 gw2).
    by apply refund_dispatch_code.
Qed.

Lemma outcome_depends_on_code_only_witness :
  answering (answer (PFloat (FDyadic (-1) 0) "-1.0") (PStr "abc123"))
    (sent shop) (purchase_request (self shop) "order-1" [])
  = Json (Object (answer (PFloat (FDyadic (-1) 0) "-1.0") (PStr "abc123")))
  /\ answering (<["message" := PStr "created"]>
                  (answer (PFloat (FDyadic (-1) 0) "-1.0") (PStr "abc123")))
       (sent shop) (purchase_request (self shop) "order-1" [])
     = Json (Object (<["message" := PStr "created"]>
                       (answer (PFloat (FDyadic (-1) 0) "-1.0")
                          (PStr "abc123"))))
  /\ answer (PFloat (FDyadic (-1) 0) "-1.0") (PStr "abc123") !! "trans_id"
     = (<["message" := PStr "created"]>
          (answer (PFloat (FDyadic (-1) 0) "-1.0") (PStr "abc123")))
       !! "trans_id"
  /\ answer (PFloat (FDyadic (-1) 0) "-1.0") (PStr "abc123") !! "code"
  = (<["message" := PStr "created"]>
       (answer (PFloat (FDyadic (-1) 0) "-1.0") (PStr "abc123"))) !! "code"
  /\ purchase "order-1" []
       (answering (answer (PFloat (FDyadic (-1) 0) "-1.0") (PStr "abc123")))
       shop
     = purchase "order-1" []
         (answering (<["message" := PStr "created"]>
                       (answer (PFloat (FDyadic (-1) 0) "-1.0")
                          (PStr "abc123"))))
         shop.
Proof.
  assert (Hcode :
    answer (PFloat (FDyadic (-1) 0) "-1.0") (PStr "abc123") !! "code"
    = (<["message" := PStr "created"]>
         (answer (PFloat (FDyadic (-1) 0) "-1.0") (PStr "abc123"))) !! "code")
    by (vm_compute; reflexivity).
  assert (Htrans :
    answer (PFloat (FDyadic (-1) 0) "-1.0") (PStr "abc123") !! "trans_id"
    = (<["message" := PStr "created"]>
         (answer (PFloat (FDyadic (-1) 0) "-1.0") (PStr "abc123")))
      !! "trans_id")
    by (vm_compute; reflexivity).
  split; [reflexivity|]. split; [reflexivity|]. split; [exact Htrans|].
  split; [exact Hcode|].
  apply (proj1 (outcome_depends_on_code_only
                  (answering (answer (PFloat (FDyadic (-1) 0) "-1.0")
                                (PStr "abc123")))
                  (answering (<["message" := PStr "created"]>
                                (answer (PFloat (FDyadic (-1) 0) "-1.0")
                                   (PStr "abc123"))))
                  shop _ _ Hcode) "order-1" [] eq_refl eq_refl).
  intros code _ _. exact Htrans.
Defined.

(** * Further properties of the client *)

(** ** The exceptions a call can raise *)

Create HintDb raises.

Lemma raises_only_ret {A : Type} (allowed : list exception_class) (a : A) :
  raises_only allowed (mret a).
Proof. intros gw w e. discriminate. Qed.

Lemma raises_only_raise {A : Type} (allowed : list exception_class)
    (c : exception_class) (msg : string) :
  c ∈ allowed -> raises_only allowed (@raise A (Exn c msg)).
Proof. intros Hc gw w e [= <-]. exact Hc. Qed.

Lemma raises_only_getattr {A : Type} (allowed : list exception_class)
    (attr : NextPay -> A) :
  raises_only allowed (getattr attr).
Proof. intros gw w e. discriminate. Qed.

Lemma raises_only_getitem (allowed : list exception_class)
    (result : decoded) (key : string) :
  KeyError ∈ allowed -> TypeError ∈ allowed ->
  raises_only allowed (getitem result key).
Proof.
  intros Hkey Htype. destruct result as [members|v complaint]; cbn [getitem];
    [|by apply raises_only_raise].
  destruct (members !! key); [apply raises_only_ret|by apply raises_only_raise].
Qed.

Lemma raises_only_post (allowed : list exception_class) (u : string)
    (hdrs : list (string * string)) (data : FormData.t) :
  ClientError ∈ allowed -> raises_only allowed (post u hdrs data).
Proof.
  intros Hc gw w e. unfold post.
  destruct (gw (sent w) _); [discriminate|]. by intros [= <-].
Qed.

Lemma raises_only_bind {A B : Type} (allowed : list exception_class)
    (m : M A) (f : A -> M B) :
  raises_only allowed m -> (forall a, raises_only allowed (f a)) ->
  raises_only allowed (m ≫= f).
Proof.
  intros Hm Hf gw w e. rewrite bind_run. specialize (Hm gw w).
  destruct (m gw w) as [[a|e'] w']; [apply Hf|].
  intros [= <-]. by apply Hm.
Qed.

Lemma raises_only_if {A : Type} (allowed : list exception_class) (b : bool)
    (m1 m2 : M A) :
  raises_only allowed m1 -> raises_only allowed m2 ->
  raises_only allowed (if b then m1 else m2).
Proof. by destruct b. Qed.

Lemma raises_only_for_kwargs (allowed : list exception_class)
    (kwargs : list (string * pyval)) (data : FormData.t) :
  InvalidKey ∈ allowed -> raises_only allowed (for_kwargs kwargs data).
Proof.
  intros Hc. revert data.
  induction kwargs as [|[key value] rest IH]; intros data; cbn [for_kwargs].
  - apply raises_only_ret.
  - apply raises_only_if; [apply IH|by apply raises_only_raise].
Qed.

#[local] Hint Resolve raises_only_ret raises_only_raise raises_only_getattr
  raises_only_getitem raises_only_post raises_only_bind raises_only_if
  raises_only_for_kwargs : raises.

#[local] Hint Extern 1 (_ ∈ _) =>
  solve [repeat first [apply list_elem_of_here | apply list_elem_of_further]]
  : raises.

Lemma raises_only_purchase_dispatch (result : decoded) :
  raises_only [InvalidCallbackUri; InvalidToken; UnknownHandled; KeyError;
               TypeError; ClientError]
    (purchase_dispatch result).
Proof. unfold purchase_dispatch. auto 30 with raises. Qed.

Lemma raises_only_exchange {A : Type} (allowed : list exception_class)
    (req : request) (k : decoded -> M A) :
  ClientError ∈ allowed -> (forall result, raises_only allowed (k result)) ->
  raises_only allowed (exchange req k).
Proof. intros Hc Hk. unfold exchange. auto with raises. Qed.

(** X5: Each operation raises only what its own code can raise:
    [purchase] one of [InvalidKey], [InvalidCallbackUri], [InvalidToken],
    [UnknownHandled]; [verify] one of [PurchaseDeclined],
    [PurchaseCanceled], [InvalidPrice], [PurchaseAlreadyMade],
    [InvalidTransId], [UnknownHandled]; [refund] one of [RefundFailed],
    [NotEnoughBalance], [InvalidTransId], [UnknownHandled]; besides these
    only the [KeyError] or [TypeError] of a subscript on the decoded body,
    or a failure of the transport. *)
Theorem operations_raise_only (gw : gateway) (w : world) (e : exn) :
  (forall (order_id : string) (kwargs : list (string * pyval)),
     (purchase order_id kwargs gw w).1 = Raise e ->
     exn_class e ∈ [InvalidKey; InvalidCallbackUri; InvalidToken;
                    UnknownHandled; KeyError; TypeError; ClientError])
  /\ (forall (trans_id : string) (currency : pyval),
        (verify trans_id currency gw w).1 = Raise e ->
        exn_class e ∈ [PurchaseDeclined; PurchaseCanceled; InvalidPrice;
                       PurchaseAlreadyMade; InvalidTransId; UnknownHandled;
                       KeyError; TypeError; ClientError])
  /\ (forall trans_id : pyval,
        (refund trans_id gw w).1 = Raise e ->
        exn_class e ∈ [RefundFailed; NotEnoughBalance; InvalidTransId;
                       UnknownHandled; KeyError; TypeError; ClientError]).
Proof.
  split; [|split].
  - intros order_id kwargs.
    assert (H : raises_only [InvalidKey; InvalidCallbackUri; InvalidToken;
                             UnknownHandled; KeyError; TypeError; ClientError]
                  (purchase order_id kwargs)); [|apply H].
    unfold purchase. cbv zeta. auto 40 with raises.
  - intros trans_id currency.
    assert (H : raises_only [PurchaseDeclined; PurchaseCanceled; InvalidPrice;
                             PurchaseAlreadyMade; InvalidTransId;
                             UnknownHandled; KeyError; TypeError; ClientError]
                  (verify trans_id currency)); [|apply H].
    unfold verify. cbv zeta. auto 40 with raises.
  - intros trans_id.
    assert (H : raises_only [RefundFailed; NotEnoughBalance; InvalidTransId;
                             UnknownHandled; KeyError; TypeError; ClientError]
                  (refund trans_id)); [|apply H].
    unfold refund. cbv zeta. auto 40 with raises.
Qed.

(** X4: [purchase] raises [InvalidKey] exactly when some keyword argument
    has a key outside the accepted ones: nothing the gateway answers is
    ever turned into this exception. *)
Theorem purchase_invalid_key_iff (order_id : string)
    (kwargs : list (string * pyval)) (gw : gateway) (w : world) :
  (exists msg : string,
     (purchase order_id kwargs gw w).1 = Raise (Exn InvalidKey msg))
  <-> (exists key : string, key ∈ kwargs.*1 /\ (key ∉ extension_keys)).
Proof.
  split.
  - intros (msg & Hraise).
    destruct (decide (Forall (fun kv => kv.1 ∈ extension_keys) kwargs))
      as [Hok|Hbad].
    + rewrite purchase_run in Hraise by done.
      apply (raises_only_exchange
               [InvalidCallbackUri; InvalidToken; UnknownHandled; KeyError;
                TypeError; ClientError] _ purchase_dispatch) in Hraise;
        [|auto with raises|apply raises_only_purchase_dispatch].
      cbn [exn_class] in Hraise.
      rewrite !elem_of_cons, elem_of_nil in Hraise.
      destruct Hraise as [?|[?|[?|[?|[?|[?|[]]]]]]]; discriminate.
    + destruct (purchase_run_invalid order_id kwargs Hbad)
        as (key & Hin & Hout & _).
      by exists key.
  - intros (bad & Hin & Hout).
    destruct (purchase_run_invalid order_id kwargs) as (key & _ & _ & Hrun).
    + intros Hall. apply Hout.
      apply list_elem_of_fmap in Hin as (kv & -> & Hkv).
      by apply (proj1 (Forall_forall _ _) Hall kv).
    + eexists. by rewrite Hrun.
Qed.

(** ** Answers without an integer code *)

(** Running a dispatch whose code is known, test after test. *)
Ltac run_dispatch Hcode :=
  unfold purchase_dispatch, verify_dispatch, refund_dispatch;
  repeat (rewrite (getitem_run _ _ _ _ _ _ Hcode);
          cbn [py_eq_int py_in_ints existsb orb Z.b2z Z.eqb]);
  rewrite ?getattr_run;
  repeat (rewrite (getitem_run _ _ _ _ _ _ Hcode);
          cbn [py_eq_int py_in_ints existsb orb Z.b2z Z.eqb]).

(** X1: When the gateway answers the request of the call with a JSON
    object that has no [code] member, each of [purchase], [verify] and
    [refund] raises [KeyError] for that key; the request has been posted,
    once, and the answer is not classified. *)
Theorem missing_code_is_key_error (gw : gateway) (w : world)
    (result : gmap string pyval) :
  result !! "code" = None ->
  (forall (order_id : string) (kwargs : list (string * pyval)),
     Forall (fun kv => kv.1 ∈ extension_keys) kwargs ->
     gw (sent w) (purchase_request (self w) order_id kwargs)
     = Json (Object result) ->
     (purchase order_id kwargs gw w).1 = Raise (Exn KeyError "'code'")
     /\ sent (purchase order_id kwargs gw w).2
        = sent w ++ [purchase_request (self w) order_id kwargs])
  /\ (forall (trans_id : string) (currency : pyval),
        gw (sent w) (verify_request_for (self w) trans_id currency)
        = Json (Object result) ->
        (verify trans_id currency gw w).1 = Raise (Exn KeyError "'code'")
        /\ sent (verify trans_id currency gw w).2
           = sent w ++ [verify_request_for (self w) trans_id currency])
  /\ (forall trans_id : pyval,
        gw (sent w) (refund_request (self w) trans_id)
        = Json (Object result) ->
        (refund trans_id gw w).1 = Raise (Exn KeyError "'code'")
        /\ sent (refund trans_id gw w).2
           = sent w ++ [refund_request (self w) trans_id]).
Proof.
  intros Hcode. split; [|split].
  - intros order_id kwargs Hok Hgw.
    rewrite purchase_run, (exchange_answer _ _ _ _ _ Hgw) by done.
    unfold purchase_dispatch. by rewrite getitem_missing.
  - intros trans_id currency Hgw.
    rewrite verify_run. fold (verify_request_for (self w) trans_id currency).
    rewrite (exchange_answer _ _ _ _ _ Hgw).
    unfold verify_dispatch. by rewrite getitem_missing.
  - intros trans_id Hgw.
    rewrite refund_run, (exchange_answer _ _ _ _ _ Hgw).
    unfold refund_dispatch. by rewrite getitem_missing.
Qed.

Lemma missing_code_is_key_error_witness :
  (<["status" := PStr "ok"]> ∅ : gmap string pyval) !! "code" = None
  /\ answering (<["status" := PStr "ok"]> ∅) (sent shop)
       (refund_request (self shop) (PStr "abc123"))
     = Json (Object (<["status" := PStr "ok"]> ∅))
  /\ (refund (PStr "abc123") (answering (<["status" := PStr "ok"]> ∅)) shop).1
     = Raise (Exn KeyError "'code'")
  /\ sent (refund (PStr "abc123") (answering (<["status" := PStr "ok"]> ∅))
             shop).2
     = sent shop ++ [refund_request (self shop) (PStr "abc123")].
Proof.
  assert (Hcode :
    (<["status" := PStr "ok"]> ∅ : gmap string pyval) !! "code" = None)
    by (vm_compute; reflexivity).
  split; [exact Hcode|]. split; [reflexivity|].
  exact (proj2 (proj2 (missing_code_is_key_error
                         (answering (<["status" := PStr "ok"]> ∅)) shop
                         _ Hcode))
           (PStr "abc123") eq_refl).
Defined.

(** X2: [purchase], answered with a JSON object whose code is -1 but
    which has no [trans_id] member, raises [KeyError] for [trans_id]
    instead of returning a reference. *)
Theorem purchase_without_trans_id (order_id : string)
    (kwargs : list (string * pyval)) (gw : gateway) (w : world)
    (result : gmap string pyval) :
  Forall (fun kv => kv.1 ∈ extension_keys) kwargs ->
  gw (sent w) (purchase_request (self w) order_id kwargs)
  = Json (Object result) ->
  result !! "code" = Some (PInt (-1)) ->
  result !! "trans_id" = None ->
  (purchase order_id kwargs gw w).1 = Raise (Exn KeyError "'trans_id'").
Proof.
  intros Hok Hgw Hcode Htrans.
  rewrite purchase_run, (exchange_answer _ _ _ _ _ Hgw) by done.
  rewrite (purchase_dispatch_int _ _ _ _ Hcode). cbn [Z.eqb Pos.eqb getitem].
  by rewrite Htrans.
Qed.

Lemma purchase_without_trans_id_witness :
  Forall (fun kv : string * pyval => kv.1 ∈ extension_keys) []
  /\ answering (<["code" := PInt (-1)]> ∅) (sent shop)
       (purchase_request (self shop) "order-1" [])
     = Json (Object (<["code" := PInt (-1)]> ∅))
  /\ (<["code" := PInt (-1)]> ∅ : gmap string pyval) !! "code"
     = Some (PInt (-1))
  /\ (<["code" := PInt (-1)]> ∅ : gmap string pyval) !! "trans_id" = None
  /\ (purchase "order-1" [] (answering (<["code" := PInt (-1)]> ∅)) shop).1
     = Raise (Exn KeyError "'trans_id'").
Proof.
  assert (Hcode : (<["code" := PInt (-1)]> ∅ : gmap string pyval) !! "code"
                  = Some (PInt (-1))) by (vm_compute; reflexivity).
  assert (Htrans : (<["code" := PInt (-1)]> ∅ : gmap string pyval) !! "trans_id"
                   = None) by (vm_compute; reflexivity).
  split; [constructor|]. split; [reflexivity|]. split; [exact Hcode|].
  split; [exact Htrans|].
  exact (purchase_without_trans_id "order-1" []
           (answering (<["code" := PInt (-1)]> ∅)) shop
           (<["code" := PInt (-1)]> ∅) (Forall_nil_2 _) eq_refl Hcode Htrans).
Defined.

(** X6: A code that is neither an [int], a [bool] nor a [float] (a string
    such as "0", [None], a list or a dict) matches no test: each
    operation raises [UnknownHandled] and the message ends with
    [str(code)]. *)
Theorem non_numeric_code_is_unhandled (gw : gateway) (w : world)
    (result : gmap string pyval) (v : pyval) :
  result !! "code" = Some v ->
  non_numeric v = true ->
  let unhandled :=
    Exn UnknownHandled ("Un-handled error code : " +:+ py_str v) in
  (forall (order_id : string) (kwargs : list (string * pyval)),
     Forall (fun kv => kv.1 ∈ extension_keys) kwargs ->
     gw (sent w) (purchase_request (self w) order_id kwargs)
     = Json (Object result) ->
     (purchase order_id kwargs gw w).1 = Raise unhandled)
  /\ (forall (trans_id : string) (currency : pyval),
        gw (sent w) (verify_request_for (self w) trans_id currency)
        = Json (Object result) ->
        (verify trans_id currency gw w).1 = Raise unhandled)
  /\ (forall trans_id : pyval,
        gw (sent w) (refund_request (self w) trans_id)
        = Json (Object result) ->
        (refund trans_id gw w).1 = Raise unhandled).
Proof.
  intros Hcode Hv unhandled. subst unhandled. split; [|split].
  - intros order_id kwargs Hok Hgw.
    rewrite purchase_run, (exchange_answer _ _ _ _ _ Hgw) by done.
    destruct v; try discriminate; by run_dispatch Hcode.
  - intros trans_id currency Hgw.
    rewrite verify_run. fold (verify_request_for (self w) trans_id currency).
    rewrite (exchange_answer _ _ _ _ _ Hgw).
    destruct v; try discriminate; by run_dispatch Hcode.
  - intros trans_id Hgw.
    rewrite refund_run, (exchange_answer _ _ _ _ _ Hgw).
    destruct v; try discriminate; by run_dispatch Hcode.
Qed.

Lemma non_numeric_code_is_unhandled_witness :
  answer (PStr "0") PNone !! "code" = Some (PStr "0")
  /\ non_numeric (PStr "0") = true
  /\ answering (answer (PStr "0") PNone) (sent shop)
       (verify_request_for (self shop) "abc123" PNone)
     = Json (Object (answer (PStr "0") PNone))
  /\ (verify "abc123" PNone (answering (answer (PStr "0") PNone)) shop).1
     = Raise (Exn UnknownHandled ("Un-handled error code : " +:+ "0")).
Proof.
  assert (Hcode : answer (PStr "0") PNone !! "code" = Some (PStr "0"))
    by (vm_compute; reflexivity).
  split; [exact Hcode|]. split; [reflexivity|]. split; [reflexivity|].
  exact (proj1 (proj2 (non_numeric_code_is_unhandled
                         (answering (answer (PStr "0") PNone)) shop
                         _ (PStr "0") Hcode eq_refl))
           "abc123" PNone eq_refl).
Defined.

(** X7: A JSON boolean as code is compared as the integer it is in
    Python: [verify] returns [True] on [false] (which equals 0) and raises
    [UnknownHandled] on [true]; [purchase] and [refund], whose tables hold
    neither 0 nor 1, raise [UnknownHandled] on both. *)
Theorem boolean_code (gw : gateway) (w : world)
    (result : gmap string pyval) (b : bool) :
  result !! "code" = Some (PBool b) ->
  let unhandled :=
    Exn UnknownHandled ("Un-handled error code : " +:+ py_str (PBool b)) in
  (forall (trans_id : string) (currency : pyval),
     gw (sent w) (verify_request_for (self w) trans_id currency)
     = Json (Object result) ->
     (verify trans_id currency gw w).1
     = if b then Raise unhandled else Return true)
  /\ (forall (order_id : string) (kwargs : list (string * pyval)),
        Forall (fun kv => kv.1 ∈ extension_keys) kwargs ->
        gw (sent w) (purchase_request (self w) order_id kwargs)
        = Json (Object result) ->
        (purchase order_id kwargs gw w).1 = Raise unhandled)
  /\ (forall trans_id : pyval,
        gw (sent w) (refund_request (self w) trans_id)
        = Json (Object result) ->
        (refund trans_id gw w).1 = Raise unhandled).
Proof.
  intros Hcode unhandled. subst unhandled. split; [|split].
  - intros trans_id currency Hgw.
    rewrite verify_run. fold (verify_request_for (self w) trans_id currency).
    rewrite (exchange_answer _ _ _ _ _ Hgw).
    destruct b; by run_dispatch Hcode.
  - intros order_id kwargs Hok Hgw.
    rewrite purchase_run, (exchange_answer _ _ _ _ _ Hgw) by done.
    destruct b; by run_dispatch Hcode.
  - intros trans_id Hgw.
    rewrite refund_run, (exchange_answer _ _ _ _ _ Hgw).
    destruct b; by run_dispatch Hcode.
Qed.

Lemma boolean_code_witness :
  answer (PBool false) PNone !! "code" = Some (PBool false)
  /\ answering (answer (PBool false) PNone) (sent shop)
       (verify_request_for (self shop) "abc123" PNone)
     = Json (Object (answer (PBool false) PNone))
  /\ (verify "abc123" PNone (answering (answer (PBool false) PNone)) shop).1
     = Return true.
Proof.
  assert (Hcode : answer (PBool false) PNone !! "code" = Some (PBool false))
    by (vm_compute; reflexivity).
  split; [exact Hcode|]. split; [reflexivity|].
  exact (proj1 (boolean_code (answering (answer (PBool false) PNone)) shop
                  _ false Hcode) "abc123" PNone eq_refl).
Defined.

(** ** The loop over the extensions *)

Lemma for_kwargs_first_invalid (pre post : list (string * pyval))
    (key : string) (value : pyval) (data : FormData.t)
    (gw : gateway) (w : world) :
  Forall (fun kv => kv.1 ∈ extension_keys) pre ->
  key ∉ extension_keys ->
  for_kwargs (pre ++ (key, value) :: post) data gw w
  = (Raise (Exn InvalidKey ("key " +:+ key +:+ " is invalid for NextPay.org")),
     w).
Proof.
  intros Hpre Hkey. revert data.
  induction Hpre as [|[k v] rest Hk _ IH]; intros data.
  - cbn [app for_kwargs].
    destruct (str_in key extension_keys) eqn:Hin; [|done].
    by apply str_in_elem_of in Hin.
  - cbn [app for_kwargs]. apply str_in_elem_of in Hk. cbn [fst] in Hk.
    rewrite Hk. apply IH.
Qed.

(** X3: The key named by [InvalidKey] is the first one, in the order the
    keyword arguments were given, that is outside the accepted keys;
    neither the accepted keys before it nor anything after it (accepted or
    not) changes the exception, and nothing is posted. *)
Theorem purchase_reports_first_unknown_key (order_id : string)
    (pre post : list (string * pyval)) (key : string) (value : pyval)
    (gw : gateway) (w : world) :
  Forall (fun kv => kv.1 ∈ extension_keys) pre ->
  key ∉ extension_keys ->
  purchase order_id (pre ++ (key, value) :: post) gw w
  = (Raise (Exn InvalidKey ("key " +:+ key +:+ " is invalid for NextPay.org")),
     w).
Proof.
  intros Hpre Hkey. unfold purchase. rewrite !getattr_run.
  by rewrite bind_run, for_kwargs_first_invalid.
Qed.

Lemma purchase_reports_first_unknown_key_witness :
  Forall (fun kv : string * pyval => kv.1 ∈ extension_keys)
    [("phone", PStr "0912")]
  /\ ("colour" ∉ extension_keys)
  /\ purchase "order-1"
       [("phone", PStr "0912"); ("colour", PStr "red"); ("size", PInt 4)]
       (answering (answer (PInt (-1)) (PStr "abc123"))) shop
     = (Raise (Exn InvalidKey ("key " +:+ "colour"
                               +:+ " is invalid for NextPay.org")), shop).
Proof.
  assert (Hpre : Forall (fun kv : string * pyval => kv.1 ∈ extension_keys)
                   [("phone", PStr "0912")]).
  { constructor; [|constructor]. apply str_in_elem_of. vm_compute. reflexivity. }
  assert (Hkey : "colour" ∉ extension_keys).
  { intros Hin. apply str_in_elem_of in Hin. vm_compute in Hin. discriminate. }
  split; [exact Hpre|]. split; [exact Hkey|].
  exact (purchase_reports_first_unknown_key "order-1"
           [("phone", PStr "0912")] [("size", PInt 4)] "colour" (PStr "red")
           (answering (answer (PInt (-1)) (PStr "abc123"))) shop Hpre Hkey).
Defined.

(** ** Reading the code back from the exception *)

Lemma purchase_unlisted (result : gmap string pyval) (c : Z)
    (gw : gateway) (w : world) :
  result !! "code" = Some (PInt c) -> c ∉ purchase_codes ->
  purchase_dispatch (Object result) gw w
  = (Raise (Exn UnknownHandled ("Un-handled error code : " +:+ pretty c)), w).
Proof.
  intros Hcode Hout. rewrite (purchase_dispatch_int _ _ _ _ Hcode).
  unfold purchase_codes in Hout. rewrite !not_elem_of_cons in Hout.
  settle_code. reflexivity.
Qed.

Lemma verify_unlisted (result : gmap string pyval) (c : Z)
    (gw : gateway) (w : world) :
  result !! "code" = Some (PInt c) -> c ∉ verify_codes ->
  verify_dispatch (Object result) gw w
  = (Raise (Exn UnknownHandled ("Un-handled error code : " +:+ pretty c)), w).
Proof.
  intros Hcode Hout. rewrite (verify_dispatch_int _ _ _ _ Hcode).
  unfold verify_codes in Hout. rewrite !not_elem_of_cons in Hout.
  settle_code. reflexivity.
Qed.

Lemma refund_unlisted (result : gmap string pyval) (c : Z)
    (gw : gateway) (w : world) :
  result !! "code" = Some (PInt c) -> c ∉ refund_codes ->
  refund_dispatch (Object result) gw w
  = (Raise (Exn UnknownHandled ("Un-handled error code : " +:+ pretty c)), w).
Proof.
  intros Hcode Hout. rewrite (refund_dispatch_int _ _ _ _ Hcode).
  unfold refund_codes in Hout. rewrite !not_elem_of_cons in Hout.
  settle_code. reflexivity.
Qed.

Lemma unhandled_message_inj {A : Type} (c1 c2 : Z) (w1 w2 : world) :
  (@Raise A (Exn UnknownHandled ("Un-handled error code : " +:+ pretty c1)),
   w1).1
  = (Raise (Exn UnknownHandled ("Un-handled error code : " +:+ pretty c2)),
     w2).1 ->
  c1 = c2.
Proof.
  cbn [fst]. intros [= Hmsg].
  apply (inj (String.app _)) in Hmsg. by apply (inj pretty) in Hmsg.
Qed.

(** X8: The [UnknownHandled] exception identifies the code: when the
    request of a call is answered by two JSON objects whose integer codes
    are both outside the operation's table and the operation ends the same
    way on both, the two codes are equal. *)
Theorem unhandled_exception_names_the_code (gw1 gw2 : gateway) (w : world)
    (r1 r2 : gmap string pyval) (c1 c2 : Z) :
  r1 !! "code" = Some (PInt c1) ->
  r2 !! "code" = Some (PInt c2) ->
  (forall (order_id : string) (kwargs : list (string * pyval)),
     Forall (fun kv => kv.1 ∈ extension_keys) kwargs ->
     gw1 (sent w) (purchase_request (self w) order_id kwargs)
     = Json (Object r1) ->
     gw2 (sent w) (purchase_request (self w) order_id kwargs)
     = Json (Object r2) ->
     c1 ∉ purchase_codes -> c2 ∉ purchase_codes ->
     (purchase order_id kwargs gw1 w).1 = (purchase order_id kwargs gw2 w).1 ->
     c1 = c2)
  /\ (forall (trans_id : string) (currency : pyval),
        gw1 (sent w) (verify_request_for (self w) trans_id currency)
        = Json (Object r1) ->
        gw2 (sent w) (verify_request_for (self w) trans_id currency)
        = Json (Object r2) ->
        c1 ∉ verify_codes -> c2 ∉ verify_codes ->
        (verify trans_id currency gw1 w).1 = (verify trans_id currency gw2 w).1 ->
        c1 = c2)
  /\ (forall trans_id : pyval,
        gw1 (sent w) (refund_request (self w) trans_id) = Json (Object r1) ->
        gw2 (sent w) (refund_request (self w) trans_id) = Json (Object r2) ->
        c1 ∉ refund_codes -> c2 ∉ refund_codes ->
        (refund trans_id gw1 w).1 = (refund trans_id gw2 w).1 ->
        c1 = c2).
Proof.
  intros Hc1 Hc2. split; [|split].
  - intros order_id kwargs Hok Hgw1 Hgw2 Hout1 Hout2.
    rewrite !purchase_run by done.
    rewrite (exchange_answer _ _ _ _ _ Hgw1), (exchange_answer _ _ _ _ _ Hgw2).
    rewrite (purchase_unlisted _ _ _ _ Hc1 Hout1).
    rewrite (purchase_unlisted _ _ _ _ Hc2 Hout2).
    apply unhandled_message_inj.
  - intros trans_id currency Hgw1 Hgw2 Hout1 Hout2.
    rewrite !verify_run.
    fold (verify_request_for (self w) trans_id currency).
    rewrite (exchange_answer _ _ _ _ _ Hgw1), (exchange_answer _ _ _ _ _ Hgw2).
    rewrite (verify_unlisted _ _ _ _ Hc1 Hout1).
    rewrite (verify_unlisted _ _ _ _ Hc2 Hout2).
    apply unhandled_message_inj.
  - intros trans_id Hgw1 Hgw2 Hout1 Hout2.
    rewrite !refund_run.
    rewrite (exchange_answer _ _ _ _ _ Hgw1), (exchange_answer _ _ _ _ _ Hgw2).
    rewrite (refund_unlisted _ _ _ _ Hc1 Hout1).
    rewrite (refund_unlisted _ _ _ _ Hc2 Hout2).
    apply unhandled_message_inj.
Qed.

Lemma unhandled_exception_names_the_code_witness :
  answer (PInt 7) PNone !! "code" = Some (PInt 7)
  /\ answer (PInt 8) PNone !! "code" = Some (PInt 8)
  /\ answering (answer (PInt 7) PNone) (sent shop)
       (refund_request (self shop) (PStr "abc123"))
     = Json (Object (answer (PInt 7) PNone))
  /\ answering (answer (PInt 8) PNone) (sent shop)
       (refund_request (self shop) (PStr "abc123"))
     = Json (Object (answer (PInt 8) PNone))
  /\ (7 ∉ refund_codes) /\ (8 ∉ refund_codes)
  /\ (refund (PStr "abc123") (answering (answer (PInt 7) PNone)) shop).1
     <> (refund (PStr "abc123") (answering (answer (PInt 8) PNone)) shop).1.
Proof.
  assert (H7 : answer (PInt 7) PNone !! "code" = Some (PInt 7))
    by (vm_compute; reflexivity).
  assert (H8 : answer (PInt 8) PNone !! "code" = Some (PInt 8))
    by (vm_compute; reflexivity).
  assert (Hout7 : 7 ∉ refund_codes).
  { unfold refund_codes. rewrite !not_elem_of_cons.
    repeat split; try lia. apply not_elem_of_nil. }
  assert (Hout8 : 8 ∉ refund_codes).
  { unfold refund_codes. rewrite !not_elem_of_cons.
    repeat split; try lia. apply not_elem_of_nil. }
  split; [exact H7|]. split; [exact H8|].
  split; [reflexivity|]. split; [reflexivity|].
  split; [exact Hout7|]. split; [exact Hout8|].
  intros Hsame.
  assert (Heq : 7 = 8); [|discriminate].
  exact (proj2 (proj2 (unhandled_exception_names_the_code
                         (answering (answer (PInt 7) PNone))
                         (answering (answer (PInt 8) PNone)) shop
                         _ _ 7 8 H7 H8))
           (PStr "abc123") eq_refl eq_refl Hout7 Hout8 Hsame).
Defined.

(** ** Construction followed by a call *)

Lemma init_run {A : Type} (token0 : string) (amount0 : pyval)
    (callback_uri0 : string) (k : unit -> M A) (gw : gateway) (w : world) :
  (__init__ token0 amount0 callback_uri0 ≫= k) gw w
  = k tt gw {| self := mkNextPay token0 amount0 callback_uri0;
               sent := sent w |}.
Proof. reflexivity. Qed.

(** X9: A call made right after [__init__] sends exactly the values the
    constructor was given, whatever the object held before: [api_key] is
    the token, [amount] the amount (not converted) and, for [purchase],
    [callback_uri] the callback address, placed after the extensions. *)
Theorem constructor_values_are_sent (token0 : string) (amount0 : pyval)
    (callback_uri0 : string) (gw : gateway) (w : world) :
  (forall (order_id : string) (kwargs : list (string * pyval)),
     Forall (fun kv => kv.1 ∈ extension_keys) kwargs ->
     sent ((__init__ token0 amount0 callback_uri0
            ≫= fun _ => purchase order_id kwargs) gw w).2
     = sent w
       ++ [Request "https://nextpay.org/nx/gateway/token" headers
             ([("api_key", PStr token0); ("amount", amount0);
               ("order_id", PStr order_id)]
              ++ kwargs ++ [("callback_uri", PStr callback_uri0)])])
  /\ (forall trans_id : string,
        sent ((__init__ token0 amount0 callback_uri0
               ≫= fun _ => verify trans_id PNone) gw w).2
        = sent w
          ++ [Request "https://nextpay.org/nx/gateway/verify" headers
                [("api_key", PStr token0); ("amount", amount0);
                 ("trans_id", PStr trans_id)]])
  /\ (forall trans_id : pyval,
        sent ((__init__ token0 amount0 callback_uri0
               ≫= fun _ => refund trans_id) gw w).2
        = sent w
          ++ [Request "https://nextpay.org/nx/gateway/verify" headers
                [("api_key", PStr token0); ("amount", amount0);
                 ("trans_id", trans_id);
                 ("refund_request", PStr "yes_money_back")]]).
Proof.
  split; [|split].
  - intros order_id kwargs Hok. rewrite init_run, purchase_run by done.
    by rewrite exchange_world by apply quiet_purchase_dispatch.
  - intros trans_id. rewrite init_run, verify_run.
    by rewrite exchange_world by apply quiet_verify_dispatch.
  - intros trans_id. rewrite init_run, refund_run.
    by rewrite exchange_world by apply quiet_refund_dispatch.
Qed.

(** ** One request per call *)

(** X10: No call retries or posts twice.  [verify] and [refund] post
    exactly one request, to the verify URL; [purchase] posts exactly one,
    to the token URL, or none at all; every request carries the two class
    headers. *)
Theorem one_request_per_call (gw : gateway) (w : world) :
  let hdrs := [("User-Agent", "PostmanRuntime/7.26.8");
               ("Content-Type", "application/x-www-form-urlencoded")] in
  (forall (order_id : string) (kwargs : list (string * pyval)),
     sent (purchase order_id kwargs gw w).2 = sent w
     \/ exists data : FormData.t,
          sent (purchase order_id kwargs gw w).2
          = sent w ++ [Request "https://nextpay.org/nx/gateway/token" hdrs data])
  /\ (forall (trans_id : string) (currency : pyval),
        exists data : FormData.t,
          sent (verify trans_id currency gw w).2
          = sent w
            ++ [Request "https://nextpay.org/nx/gateway/verify" hdrs data])
  /\ (forall trans_id : pyval,
        exists data : FormData.t,
          sent (refund trans_id gw w).2
          = sent w
            ++ [Request "https://nextpay.org/nx/gateway/verify" hdrs data]).
Proof.
  intros hdrs. split; [|split].
  - intros order_id kwargs.
    destruct (decide (Forall (fun kv => kv.1 ∈ extension_keys) kwargs))
      as [Hok|Hbad].
    + right. eexists. rewrite purchase_run by done.
      rewrite exchange_world by apply quiet_purchase_dispatch. reflexivity.
    + left. destruct (purchase_run_invalid order_id kwargs Hbad)
        as (key & _ & _ & Hrun).
      by rewrite Hrun.
  - intros trans_id currency. eexists. rewrite verify_run.
    rewrite exchange_world by apply quiet_verify_dispatch. reflexivity.
  - intros trans_id. eexists. rewrite refund_run.
    rewrite exchange_world by apply quiet_refund_dispatch. reflexivity.
Qed.

(** ** Float codes and bodies that are not objects *)

(** X11: A float code is compared by value, so a float equal to the
    success code is a success: [purchase] returns the [trans_id] on a
    float equal to -1 (such as -1.0), [verify] returns [True] on a float
    equal to 0 and [refund] on a float equal to -90. *)
Theorem float_code_is_compared_by_value (gw : gateway) (w : world)
    (result : gmap string pyval) (f : pyfloat) (shown : string) :
  result !! "code" = Some (PFloat f shown) ->
  (forall (order_id : string) (kwargs : list (string * pyval)) (t : pyval),
     Forall (fun kv => kv.1 ∈ extension_keys) kwargs ->
     gw (sent w) (purchase_request (self w) order_id kwargs)
     = Json (Object result) ->
     float_eq_int f (-1) = true ->
     result !! "trans_id" = Some t ->
     (purchase order_id kwargs gw w).1 = Return t)
  /\ (forall (trans_id : string) (currency : pyval),
        gw (sent w) (verify_request_for (self w) trans_id currency)
        = Json (Object result) ->
        float_eq_int f 0 = true ->
        (verify trans_id currency gw w).1 = Return true)
  /\ (forall trans_id : pyval,
        gw (sent w) (refund_request (self w) trans_id)
        = Json (Object result) ->
        float_eq_int f (-90) = true ->
        (refund trans_id gw w).1 = Return true).
Proof.
  intros Hcode. split; [|split].
  - intros order_id kwargs t Hok Hgw Heq Htrans.
    rewrite purchase_run, (exchange_answer _ _ _ _ _ Hgw) by done.
    unfold purchase_dispatch. rewrite (getitem_run _ _ _ _ _ _ Hcode).
    cbn [py_eq_int]. rewrite Heq. by rewrite (getitem_found _ _ _ _ _ Htrans).
  - intros trans_id currency Hgw Heq.
    rewrite verify_run. fold (verify_request_for (self w) trans_id currency).
    rewrite (exchange_answer _ _ _ _ _ Hgw).
    unfold verify_dispatch. rewrite (getitem_run _ _ _ _ _ _ Hcode).
    cbn [py_eq_int]. by rewrite Heq.
  - intros trans_id Hgw Heq.
    rewrite refund_run, (exchange_answer _ _ _ _ _ Hgw).
    unfold refund_dispatch. rewrite (getitem_run _ _ _ _ _ _ Hcode).
    cbn [py_eq_int]. by rewrite Heq.
Qed.

Lemma float_code_is_compared_by_value_witness :
  answer (PFloat (FDyadic (-2) (-1)) "-1.0") (PStr "abc123") !! "code"
  = Some (PFloat (FDyadic (-2) (-1)) "-1.0")
  /\ Forall (fun kv : string * pyval => kv.1 ∈ extension_keys) []
  /\ answering (answer (PFloat (FDyadic (-2) (-1)) "-1.0") (PStr "abc123"))
       (sent shop) (purchase_request (self shop) "order-1" [])
     = Json (Object (answer (PFloat (FDyadic (-2) (-1)) "-1.0")
                       (PStr "abc123")))
  /\ float_eq_int (FDyadic (-2) (-1)) (-1) = true
  /\ answer (PFloat (FDyadic (-2) (-1)) "-1.0") (PStr "abc123") !! "trans_id"
     = Some (PStr "abc123")
  /\ (purchase "order-1" []
        (answering (answer (PFloat (FDyadic (-2) (-1)) "-1.0")
                      (PStr "abc123"))) shop).1
     = Return (PStr "abc123").
Proof.
  assert (Hcode :
    answer (PFloat (FDyadic (-2) (-1)) "-1.0") (PStr "abc123") !! "code"
    = Some (PFloat (FDyadic (-2) (-1)) "-1.0")) by (vm_compute; reflexivity).
  assert (Htrans :
    answer (PFloat (FDyadic (-2) (-1)) "-1.0") (PStr "abc123") !! "trans_id"
    = Some (PStr "abc123")) by (vm_compute; reflexivity).
  split; [exact Hcode|]. split; [constructor|]. split; [reflexivity|].
  split; [reflexivity|]. split; [exact Htrans|].
  exact (proj1 (float_code_is_compared_by_value
                  (answering (answer (PFloat (FDyadic (-2) (-1)) "-1.0")
                                (PStr "abc123"))) shop
                  _ (FDyadic (-2) (-1)) "-1.0" Hcode)
           "order-1" [] (PStr "abc123") (Forall_nil_2 _) eq_refl eq_refl
           Htrans).
Defined.

(** X12: When the body decodes to something that is not a JSON object (an
    array, a string, a number, a boolean, null), each operation has posted
    its request and raises the [TypeError] of the subscript
    [result['code']]: nothing checks the shape of the answer first. *)
Theorem non_object_answer_is_type_error (gw : gateway) (w : world)
    (v : pyval) (complaint : string) :
  (forall (order_id : string) (kwargs : list (string * pyval)),
     Forall (fun kv => kv.1 ∈ extension_keys) kwargs ->
     gw (sent w) (purchase_request (self w) order_id kwargs)
     = Json (NonObject v complaint) ->
     (purchase order_id kwargs gw w).1 = Raise (Exn TypeError complaint)
     /\ sent (purchase order_id kwargs gw w).2
        = sent w ++ [purchase_request (self w) order_id kwargs])
  /\ (forall (trans_id : string) (currency : pyval),
        gw (sent w) (verify_request_for (self w) trans_id currency)
        = Json (NonObject v complaint) ->
        (verify trans_id currency gw w).1 = Raise (Exn TypeError complaint)
        /\ sent (verify trans_id currency gw w).2
           = sent w ++ [verify_request_for (self w) trans_id currency])
  /\ (forall trans_id : pyval,
        gw (sent w) (refund_request (self w) trans_id)
        = Json (NonObject v complaint) ->
        (refund trans_id gw w).1 = Raise (Exn TypeError complaint)
        /\ sent (refund trans_id gw w).2
           = sent w ++ [refund_request (self w) trans_id]).
Proof.
  split; [|split].
  - intros order_id kwargs Hok Hgw.
    by rewrite purchase_run, (exchange_answer _ _ _ _ _ Hgw) by done.
  - intros trans_id currency Hgw.
    rewrite verify_run. fold (verify_request_for (self w) trans_id currency).
    by rewrite (exchange_answer _ _ _ _ _ Hgw).
  - intros trans_id Hgw.
    by rewrite refund_run, (exchange_answer _ _ _ _ _ Hgw).
Qed.

Lemma non_object_answer_is_type_error_witness :
  (fun (_ : list request) (_ : request) =>
     Json (NonObject (PObj "[]")
             "list indices must be integers or slices, not str"))
    (sent shop) (refund_request (self shop) (PStr "abc123"))
  = Json (NonObject (PObj "[]")
            "list indices must be integers or slices, not str")
  /\ (refund (PStr "abc123")
        (fun _ _ =>
           Json (NonObject (PObj "[]")
                   "list indices must be integers or slices, not str"))
        shop).1
     = Raise (Exn TypeError "list indices must be integers or slices, not str").
Proof.
  split; [reflexivity|].
  exact (proj1 (proj2 (proj2 (non_object_answer_is_type_error
                                (fun _ _ =>
                                   Json (NonObject (PObj "[]")
                                     "list indices must be integers or slices, not str"))
                                shop (PObj "[]")
                                "list indices must be integers or slices, not str"))
                  (PStr "abc123") eq_refl)).
Defined.

(** ** Instances *)

Lemma operations_raise_only_witness :
  (purchase "order-1" [("colour", PStr "red")]
     (answering (answer (PInt (-1)) (PStr "abc123"))) shop).1
  = Raise (Exn InvalidKey "key colour is invalid for NextPay.org")
  /\ InvalidKey ∈ [InvalidKey; InvalidCallbackUri; InvalidToken;
                   UnknownHandled; KeyError; TypeError; ClientError].
Proof.
  assert (Hraise :
    (purchase "order-1" [("colour", PStr "red")]
       (answering (answer (PInt (-1)) (PStr "abc123"))) shop).1
    = Raise (Exn InvalidKey "key colour is invalid for NextPay.org"))
    by (vm_compute; reflexivity).
  split; [exact Hraise|].
  exact (proj1 (operations_raise_only
                  (answering (answer (PInt (-1)) (PStr "abc123"))) shop
                  (Exn InvalidKey "key colour is invalid for NextPay.org"))
           "order-1" [("colour", PStr "red")] Hraise).
Defined.

Lemma purchase_invalid_key_iff_witness :
  (exists msg : string,
     (purchase "order-1" [("colour", PStr "red")]
        (answering (answer (PInt (-1)) (PStr "abc123"))) shop).1
     = Raise (Exn InvalidKey msg))
  /\ exists key : string,
       key ∈ [("colour", PStr "red")].*1 /\ (key ∉ extension_keys).
Proof.
  assert (Hraise : exists msg : string,
    (purchase "order-1" [("colour", PStr "red")]
       (answering (answer (PInt (-1)) (PStr "abc123"))) shop).1
    = Raise (Exn InvalidKey msg))
    by (eexists; vm_compute; reflexivity).
  split; [exact Hraise|].
  exact (proj1 (purchase_invalid_key_iff "order-1" [("colour", PStr "red")]
                  (answering (answer (PInt (-1)) (PStr "abc123"))) shop)
           Hraise).
Defined.

Lemma constructor_values_are_sent_witness :
  Forall (fun kv : string * pyval => kv.1 ∈ extension_keys) []
  /\ sent ((__init__ "tok-456" (PStr "2500") "https://shop.example/back"
            ≫= fun _ => purchase "order-2" [])
             (answering (answer (PInt (-1)) (PStr "abc123"))) shop).2
     = [Request "https://nextpay.org/nx/gateway/token" headers
          [("api_key", PStr "tok-456"); ("amount", PStr "2500");
           ("order_id", PStr "order-2");
           ("callback_uri", PStr "https://shop.example/back")]].
Proof.
  split; [constructor|].
  exact (proj1 (constructor_values_are_sent "tok-456" (PStr "2500")
                  "https://shop.example/back"
                  (answering (answer (PInt (-1)) (PStr "abc123"))) shop)
           "order-2" [] (Forall_nil_2 _)).
Defined.
